(** * The audit trail of the financial-advanced service

    A shallow embedding of [src/services/audit_service.py]: the
    [audit_logs] table, [AuditService.log_action], [AuditService.log_error],
    [AuditService.get_audit_trail] and the [audit_required] decorator,
    together with the parts of Flask ([g], [request]), of the SQLAlchemy
    session and of Python's [json] module that these functions call, and
    [before_request] of [src/main.py], which fills [g] for them. *)

From Stdlib Require Import ZArith List String Ascii Bool Lia Sorted.
From Stdlib Require Import Decimal DecimalString DecimalFacts DecimalPos DecimalN DecimalZ.
From stdpp Require Import base option strings gmap list.

Set Warnings "-register-all,-clear-no-such-hyp".

Local Open Scope Z_scope.

(** ** Python values *)

(** The values that reach [json.dumps] in [log_action]: [None], [bool],
    [int], [str], [list], [tuple], [dict] (insertion-ordered, as a list of
    key/value pairs) and every other object ([datetime], [Decimal], [set],
    ...), which [json] cannot serialize and of which only [bool(v)]
    matters here.  A [str] is a sequence of code points below 256;
    [float] is left out. *)
Inductive pyval : Type :=
| PyNone
| PyBool (b : bool)
| PyInt (z : Z)
| PyStr (s : string)
| PyList (l : list pyval)
| PyTuple (l : list pyval)
| PyDict (d : list (pyval * pyval))
| PyObject (repr : string) (truth : bool).

(** [bool(v)]: what [if v] tests. *)
Definition truthy (v : pyval) : bool :=
  match v with
  | PyNone => false
  | PyBool b => b
  | PyInt z => negb (z =? 0)
  | PyStr s => negb (String.eqb s "")
  | PyList l => negb (Nat.eqb (length l) 0)
  | PyTuple l => negb (Nat.eqb (length l) 0)
  | PyDict d => negb (Nat.eqb (length d) 0)
  | PyObject _ truth => truth
  end.

(** ** Exceptions and the state of the process *)

(** A raised object: its class name, [str(e)], and whether the class
    derives from [Exception] ([KeyboardInterrupt], [SystemExit] and
    [GeneratorExit] do not). *)
Record exn : Type := mk_exn {
  exn_class : string;
  exn_str : string;
  is_Exception : bool
}.

Inductive result (A : Type) : Type :=
| Returns (a : A)
| Raises (e : exn).
Arguments Returns {A} a.
Arguments Raises {A} e.

(** What [request.get_json()] does: it returns the parsed body ([PyNone]
    when there is none), or raises the HTTP error [BadRequest] on a body
    it cannot parse. *)
Inductive json_body : Type :=
| Body (v : pyval)
| BadRequest (description : string).

(** [flask.request] inside a request context: [remote_addr],
    [headers.get('User-Agent')], [method], [endpoint] and [get_json()]. *)
Record Request : Type := mk_Request {
  request_remote_addr : option string;
  request_user_agent : option string;
  request_method : string;
  request_endpoint : option string;
  request_get_json : json_body
}.

(** A row of the [audit_logs] table.  Columns declared [nullable=False]
    and the primary key hold a value; every other column may be NULL. *)
Record AuditLog : Type := mk_AuditLog {
  id : string;
  user_id : string;
  user_email : option string;
  session_id : option string;
  ip_address : option string;
  user_agent : option string;
  action : string;
  resource_type : string;
  resource_id : option string;
  service_name : string;
  http_method : option string;
  endpoint : option string;
  request_payload : option string;
  response_status : option Z;
  response_payload : option string;
  old_values : option string;
  new_values : option string;
  business_context : option string;
  risk_level : option string;
  compliance_flags : option string;
  timestamp : Z;
  processing_time_ms : option Z;
  status : option string;
  error_message : option string;
  metadata : option string;
  retention_period_days : option Z;
  archived : option bool;
  archived_at : option Z
}.

(** The process as the audit code sees it.
    - [app_ctx]: the attributes of [flask.g], when an application context
      is active; an attribute maps to [None] when it was set to [None].
    - [request]: the current request, when a request context is active.
    - [rows]: the [audit_logs] table, in insertion order.
    - [fault]: the error the session raises at the next statement, if
      any: the database is not reachable, or an earlier flush failed and
      was not rolled back.
    - [utcnow]: the clock: the value a [DateTime] column records for
      [datetime.utcnow()] at this moment.
    - [uuid4], [uuid_drawn]: the identifiers [uuid.uuid4()] hands out and
      how many were drawn.
    - [stdout]: what [print] wrote. *)
Record World : Type := mk_World {
  app_ctx : option (gmap string (option string));
  request : option Request;
  rows : list AuditLog;
  fault : option string;
  utcnow : Z;
  uuid4 : nat -> string;
  uuid_drawn : nat;
  stdout : list string
}.

(** A Python computation: it reads and changes the process and either
    returns or raises.  Effects made before a raise stay. *)
Definition M (A : Type) : Type := World -> result A * World.

Definition ret {A} (a : A) : M A := fun w => (Returns a, w).
Definition raise {A} (e : exn) : M A := fun w => (Raises e, w).
Definition bind {A B} (m : M A) (k : A -> M B) : M B :=
  fun w => match m w with
           | (Returns a, w') => k a w'
           | (Raises e, w') => (Raises e, w')
           end.

Notation "x <- m ;; k" := (bind m (fun x => k))
  (at level 100, m at next level, right associativity).

(** [try: body  except Exception as e: handler e]. *)
Definition try_except {A} (body : M A) (handler : exn -> M A) : M A :=
  fun w => match body w with
           | (Returns a, w') => (Returns a, w')
           | (Raises e, w') =>
               if is_Exception e then handler e w' else (Raises e, w')
           end.

Definition lift_result {A} (r : result A) : M A := fun w => (r, w).

(** ** [json.dumps]

    The encoder with its default settings ([ensure_ascii=True],
    separators [", "] and [": "], [skipkeys=False]). *)

Definition dquote : ascii := "034"%char.
Definition backslash : ascii := "092"%char.

Definition hex_digit (n : N) : ascii :=
  if (n <? 10)%N then ascii_of_N (48 + n) else ascii_of_N (87 + n).

(** One character of a string literal: the short escapes of
    [ESCAPE_DCT], [\u00xx] for every other character outside
    [' '..'~'], and the character itself otherwise. *)
Definition escape_char (c : ascii) : string :=
  let n := N_of_ascii c in
  if Ascii.eqb c dquote then String backslash (String dquote "")
  else if Ascii.eqb c backslash then String backslash (String backslash "")
  else if (n =? 8)%N then "\b"
  else if (n =? 12)%N then "\f"
  else if (n =? 10)%N then "\n"
  else if (n =? 13)%N then "\r"
  else if (n =? 9)%N then "\t"
  else if ((n <? 32) || (126 <? n))%N then
    "\u00" +:+ String (hex_digit (n / 16)) (String (hex_digit (n mod 16)) "")
  else String c "".

Fixpoint escape_string (s : string) : string :=
  match s with
  | EmptyString => ""
  | String c s' => escape_char c +:+ escape_string s'
  end.

Definition encode_str (s : string) : string :=
  String dquote (escape_string s +:+ String dquote "").

(** [str(z)] for an [int]. *)
Definition str_int (z : Z) : string := NilZero.string_of_int (Z.to_int z).

(** The text a dict key is written as, before quoting; [None] when the
    key makes the encoder raise [TypeError]. *)
Definition key_text (k : pyval) : option string :=
  match k with
  | PyStr s => Some s
  | PyBool true => Some "true"
  | PyBool false => Some "false"
  | PyNone => Some "null"
  | PyInt z => Some (str_int z)
  | _ => None
  end.

(** The JSON text of a value; [None] when the encoder raises [TypeError]. *)
Fixpoint json_encode (v : pyval) : option string :=
  let fix items (l : list pyval) : option string :=
    match l with
    | [] => Some ""
    | x :: l' =>
        a ← json_encode x;
        b ← items l';
        Some (a +:+ (match l' with [] => "" | _ => ", " end) +:+ b)
    end in
  let fix members (d : list (pyval * pyval)) : option string :=
    match d with
    | [] => Some ""
    | (k, x) :: d' =>
        t ← key_text k;
        a ← json_encode x;
        b ← members d';
        Some (encode_str t +:+ ": " +:+ a +:+
              (match d' with [] => "" | _ => ", " end) +:+ b)
    end in
  match v with
  | PyNone => Some "null"
  | PyBool true => Some "true"
  | PyBool false => Some "false"
  | PyInt z => Some (str_int z)
  | PyStr s => Some (encode_str s)
  | PyList l => b ← items l; Some ("[" +:+ b +:+ "]")
  | PyTuple l => b ← items l; Some ("[" +:+ b +:+ "]")
  | PyDict d => b ← members d; Some ("{" +:+ b +:+ "}")
  | PyObject _ _ => None
  end.

Definition TypeError (msg : string) : exn := mk_exn "TypeError" msg true.

Definition json_dumps (v : pyval) : result string :=
  match json_encode v with
  | Some s => Returns s
  | None => Raises (TypeError "Object is not JSON serializable")
  end.

(** ** [json.loads]

    The decoder with its default settings ([strict=True], no hooks), for
    the texts whose value lies in [pyval]: the result is [None] where
    [json.loads] raises [JSONDecodeError] and where the text holds a
    [float] or a code point above 255. *)

Definition is_ws (c : ascii) : bool :=
  let n := N_of_ascii c in
  ((n =? 32) || (n =? 9) || (n =? 10) || (n =? 13))%N.

Fixpoint skip_ws (s : string) : string :=
  match s with
  | EmptyString => ""
  | String c s' => if is_ws c then skip_ws s' else s
  end.

Definition hex_value (c : ascii) : option N :=
  let n := N_of_ascii c in
  if ((48 <=? n) && (n <=? 57))%N then Some (n - 48)%N
  else if ((97 <=? n) && (n <=? 102))%N then Some (n - 87)%N
  else if ((65 <=? n) && (n <=? 70))%N then Some (n - 55)%N
  else None.

(** The character a one-letter escape stands for. *)
Definition unescape (e : ascii) : option ascii :=
  let n := N_of_ascii e in
  if Ascii.eqb e dquote then Some dquote
  else if Ascii.eqb e backslash then Some backslash
  else if Ascii.eqb e "/" then Some "/"%char
  else if Ascii.eqb e "b" then Some "008"%char
  else if Ascii.eqb e "f" then Some "012"%char
  else if Ascii.eqb e "n" then Some "010"%char
  else if Ascii.eqb e "r" then Some "013"%char
  else if Ascii.eqb e "t" then Some "009"%char
  else None.

(** A string literal, read from just after its opening quote: the
    string and the text after the closing quote. *)
Fixpoint scan_string (s : string) : option (string * string) :=
  match s with
  | EmptyString => None
  | String c s' =>
      if Ascii.eqb c dquote then Some ("", s')
      else if Ascii.eqb c backslash then
        match s' with
        | EmptyString => None
        | String e s'' =>
            if Ascii.eqb e "u" then
              match s'' with
              | String h1 (String h2 (String h3 (String h4 s3))) =>
                  a ← hex_value h1; b ← hex_value h2;
                  c ← hex_value h3; d ← hex_value h4;
                  let n := (((a * 16 + b) * 16 + c) * 16 + d)%N in
                  if (n <? 256)%N then
                    '(t, r) ← scan_string s3; Some (String (ascii_of_N n) t, r)
                  else None
              | _ => None
              end
            else
              x ← unescape e;
              '(t, r) ← scan_string s''; Some (String x t, r)
        end
      else if (N_of_ascii c <? 32)%N then None
      else '(t, r) ← scan_string s'; Some (String c t, r)
  end.

Definition digit_of (c : ascii) : option (uint -> uint) :=
  match c with
  | "0" => Some D0 | "1" => Some D1 | "2" => Some D2 | "3" => Some D3
  | "4" => Some D4 | "5" => Some D5 | "6" => Some D6 | "7" => Some D7
  | "8" => Some D8 | "9" => Some D9
  | _ => None
  end%char.

(** The leading decimal digits of a text and what follows them. *)
Fixpoint scan_digits (s : string) : uint * string :=
  match s with
  | EmptyString => (Nil, "")
  | String c s' =>
      match digit_of c with
      | Some D => let '(d, r) := scan_digits s' in (D d, r)
      | None => (Nil, s)
      end
  end.

Definition starts_fraction (s : string) : bool :=
  match s with
  | String c _ => Ascii.eqb c "." || Ascii.eqb c "e" || Ascii.eqb c "E"
  | EmptyString => false
  end.

(** An integer literal: an optional minus sign and digits with no
    leading zero, not followed by a fraction or an exponent. *)
Definition scan_number (s : string) : option (Z * string) :=
  let '(negative, s1) :=
    match s with
    | String "-" s' => (true, s')
    | _ => (false, s)
    end in
  let '(d, r) := scan_digits s1 in
  if uint_eq_dec d Nil then None
  else if uint_eq_dec (unorm d) d then
    if starts_fraction r then None
    else
      let n := Z.of_N (N.of_uint d) in
      Some (if negative then - n else n, r)
  else None.

(** [d[k] = v] on a dict whose keys are strings. *)
Fixpoint dict_set (k : string) (v : pyval) (d : list (pyval * pyval))
  : list (pyval * pyval) :=
  match d with
  | [] => [(PyStr k, v)]
  | (k', v') :: d' =>
      if (match k' with PyStr s => String.eqb s k | _ => false end)
      then (k', v) :: d'
      else (k', v') :: dict_set k v d'
  end.

(** [dict(pairs)]. *)
Definition dict_of_pairs (pairs : list (string * pyval))
  : list (pyval * pyval) :=
  fold_left (fun d p => dict_set (fst p) (snd p) d) pairs [].

(** [s] without its prefix [p], when it starts with [p]. *)
Fixpoint strip_prefix (p s : string) : option string :=
  match p with
  | EmptyString => Some s
  | String a p' =>
      match s with
      | String b s' => if Ascii.eqb a b then strip_prefix p' s' else None
      | EmptyString => None
      end
  end.

(** The text after the character [c], when [s] starts with it. *)
Definition expect (c : ascii) (s : string) : option string :=
  match s with
  | String c' r => if Ascii.eqb c' c then Some r else None
  | EmptyString => None
  end.

(** One value and the text after it; [fuel] bounds the nesting. *)
Fixpoint parse_value (fuel : nat) (s : string) : option (pyval * string) :=
  match fuel with
  | O => None
  | S fuel' =>
      match scan_number s with
      | Some (z, r) => Some (PyInt z, r)
      | None =>
          match s with
          | EmptyString => None
          | String c s' =>
              if Ascii.eqb c dquote then
                '(t, r) ← scan_string s'; Some (PyStr t, r)
              else if Ascii.eqb c "[" then
                match expect "]" (skip_ws s') with
                | Some r => Some (PyList [], r)
                | None =>
                    '(l, r) ← parse_items fuel' (skip_ws s');
                    Some (PyList l, r)
                end
              else if Ascii.eqb c "{" then
                match expect "}" (skip_ws s') with
                | Some r => Some (PyDict [], r)
                | None =>
                    '(m, r) ← parse_members fuel' (skip_ws s');
                    Some (PyDict (dict_of_pairs m), r)
                end
              else
                match strip_prefix "null" s with
                | Some r => Some (PyNone, r)
                | None =>
                    match strip_prefix "true" s with
                    | Some r => Some (PyBool true, r)
                    | None =>
                        match strip_prefix "false" s with
                        | Some r => Some (PyBool false, r)
                        | None => None
                        end
                    end
                end
          end
      end
  end
with parse_items (fuel : nat) (s : string)
  : option (list pyval * string) :=
  match fuel with
  | O => None
  | S fuel' =>
      '(v, r) ← parse_value fuel' s;
      match expect "," (skip_ws r) with
      | Some r' =>
          '(l, r'') ← parse_items fuel' (skip_ws r'); Some (v :: l, r'')
      | None =>
          match expect "]" (skip_ws r) with
          | Some r' => Some ([v], r')
          | None => None
          end
      end
  end
with parse_members (fuel : nat) (s : string)
  : option (list (string * pyval) * string) :=
  match fuel with
  | O => None
  | S fuel' =>
      s' ← expect dquote s;
      '(k, r) ← scan_string s';
      r1 ← expect ":" (skip_ws r);
      '(v, r2) ← parse_value fuel' (skip_ws r1);
      match expect "," (skip_ws r2) with
      | Some r3 =>
          '(m, r4) ← parse_members fuel' (skip_ws r3);
          Some ((k, v) :: m, r4)
      | None =>
          match expect "}" (skip_ws r2) with
          | Some r3 => Some ([(k, v)], r3)
          | None => None
          end
      end
  end.

Definition json_loads (s : string) : option pyval :=
  match parse_value (S (String.length s)) (skip_ws s) with
  | Some (v, r) =>
      match skip_ws r with
      | EmptyString => Some v
      | _ => None
      end
  | None => None
  end.

(** The payloads that JSON represents as they are: [None], booleans,
    integers, strings, lists of such values, and dicts of such values
    whose keys are distinct strings. *)
Definition key_str (k : pyval) : option string :=
  match k with
  | PyStr s => Some s
  | _ => None
  end.

Fixpoint distinct (l : list string) : bool :=
  match l with
  | [] => true
  | x :: l' => negb (existsb (String.eqb x) l') && distinct l'
  end.

Fixpoint json_native (v : pyval) : bool :=
  match v with
  | PyNone | PyBool _ | PyInt _ | PyStr _ => true
  | PyList l => forallb json_native l
  | PyDict d =>
      forallb (fun p => bool_decide (is_Some (key_str (fst p)))) d
      && distinct (omap (fun p => key_str (fst p)) d)
      && forallb (fun p => json_native (snd p)) d
  | PyTuple _ | PyObject _ _ => false
  end.

(** ** Flask's [g] and [request], [print], the database session *)

Definition RuntimeError (msg : string) : exn := mk_exn "RuntimeError" msg true.
Definition OperationalError (msg : string) : exn :=
  mk_exn "OperationalError" msg true.
Definition IntegrityError (msg : string) : exn :=
  mk_exn "IntegrityError" msg true.
Definition DataError (msg : string) : exn := mk_exn "DataError" msg true.

(** The attribute [name] of the object behind [g], or [dflt] when it
    has none. *)
Definition g_attr (g : gmap string (option string)) (name : string)
    (dflt : option string) : option string :=
  match g !! name with
  | Some v => v
  | None => dflt
  end.

(** [getattr(g, name, dflt)]: the proxy [g] raises [RuntimeError], which
    [getattr] does not turn into [dflt], when no application context is
    active. *)
Definition getattr_g (name : string) (dflt : option string)
  : M (option string) :=
  fun w => match app_ctx w with
           | None =>
               (Raises (RuntimeError "Working outside of application context."), w)
           | Some g => (Returns (g_attr g name dflt), w)
           end.

(** [attr(request) if request else None]: the proxy [request] is false
    outside a request context. *)
Definition request_attr {A} (attr : Request -> option A) : M (option A) :=
  fun w => (Returns (match request w with
                     | Some r => attr r
                     | None => None
                     end), w).

(** [request.get_json()]. *)
Definition get_json (r : Request) : M pyval :=
  match request_get_json r with
  | Body v => ret v
  | BadRequest description => raise (mk_exn "BadRequest" description true)
  end.

(** [json.dumps(request.get_json()) if request and request.get_json()
    else None]. *)
Definition dump_request_json : M (option string) :=
  fun w => match request w with
           | None => (Returns None, w)
           | Some r =>
               (body <- get_json r;;
                if truthy body then
                  body' <- get_json r;;
                  s <- lift_result (json_dumps body');;
                  ret (Some s)
                else ret None) w
           end.

(** [json.dumps(v) if v else None]. *)
Definition dump_if_truthy (v : pyval) : M (option string) :=
  if truthy v then s <- lift_result (json_dumps v);; ret (Some s)
  else ret None.

(** [print(line)]. *)
Definition print (line : string) : M unit :=
  fun w => (Returns tt,
            mk_World (app_ctx w) (request w) (rows w) (fault w) (utcnow w)
                     (uuid4 w) (uuid_drawn w) (stdout w ++ [line])).

(** A new [AuditLog] instance: the keyword arguments [log_action] gives
    the constructor.  Any of them may be [None] in Python, except
    [service_name] and [status], which are literals. *)
Record AuditLog_new : Type := mk_AuditLog_new {
  new_user_id : option string;
  new_user_email : option string;
  new_session_id : option string;
  new_ip_address : option string;
  new_user_agent : option string;
  new_action : option string;
  new_resource_type : option string;
  new_resource_id : option string;
  new_service_name : string;
  new_http_method : option string;
  new_endpoint : option string;
  new_request_payload : option string;
  new_old_values : option string;
  new_new_values : option string;
  new_business_context : option string;
  new_risk_level : option string;
  new_compliance_flags : option string;
  new_status : string
}.

(** A value fits a [String(width)] column. *)
Definition fits (width : nat) (v : option string) : bool :=
  match v with
  | Some s => (String.length s <=? width)%nat
  | None => true
  end.

(** Every [String(n)] column of the new row is given at most [n]
    characters. *)
Definition within_widths (o : AuditLog_new) : bool :=
  (fits 50 (new_user_id o) && fits 100 (new_user_email o)
   && fits 100 (new_session_id o) && fits 45 (new_ip_address o)
   && fits 10 (new_http_method o) && fits 200 (new_endpoint o))
  && (fits 100 (new_action o) && fits 50 (new_resource_type o)
      && fits 50 (new_resource_id o) && fits 20 (new_risk_level o))
  && (fits 50 (Some (new_service_name o)) && fits 20 (Some (new_status o))).

(** The state of a session after a flush failed and [rollback()] was not
    called: every later statement raises. *)
Definition needs_rollback : string :=
  "This Session's transaction has been rolled back due to a previous exception during flush.".

(** [db.session.add(audit_log); db.session.commit()], then reading the
    flushed instance.  This module's [db] is used nowhere else, so the
    session holds no other pending object.  The INSERT fills [id] and
    [timestamp] from their column defaults; the identifiers [uuid4] hands
    out are taken to be new.  It fails when the session
    cannot run a statement, when a [nullable=False] column would be NULL,
    and when a value is longer than its [String(n)] column, as MySQL, the
    configured database, does in its default strict mode; after a failed
    flush the session needs a rollback that the code never does. *)
Definition db_session_add_commit (o : AuditLog_new) : M AuditLog :=
  fun w =>
    match fault w with
    | Some msg => (Raises (OperationalError msg), w)
    | None =>
        let w' := mk_World (app_ctx w) (request w) (rows w)
                           (Some needs_rollback) (utcnow w) (uuid4 w)
                           (S (uuid_drawn w)) (stdout w) in
        match new_user_id o, new_action o, new_resource_type o with
        | Some u, Some a, Some t =>
            if within_widths o then
              let r := {|
                id := uuid4 w (uuid_drawn w);
                user_id := u;
                user_email := new_user_email o;
                session_id := new_session_id o;
                ip_address := new_ip_address o;
                user_agent := new_user_agent o;
                action := a;
                resource_type := t;
                resource_id := new_resource_id o;
                service_name := new_service_name o;
                http_method := new_http_method o;
                endpoint := new_endpoint o;
                request_payload := new_request_payload o;
                response_status := None;
                response_payload := None;
                old_values := new_old_values o;
                new_values := new_new_values o;
                business_context := new_business_context o;
                risk_level :=
                  Some (match new_risk_level o with
                        | Some l => l
                        | None => "LOW"
                        end);
                compliance_flags := new_compliance_flags o;
                timestamp := utcnow w;
                processing_time_ms := None;
                status := Some (new_status o);
                error_message := None;
                metadata := None;
                retention_period_days := Some 2555;
                archived := Some false;
                archived_at := None
              |} in
              (Returns r,
               mk_World (app_ctx w) (request w) (rows w ++ [r]) (fault w)
                        (utcnow w) (uuid4 w) (S (uuid_drawn w)) (stdout w))
            else (Raises (DataError "Data too long for column"), w')
        | _, _, _ => (Raises (IntegrityError "Column cannot be null"), w')
        end
    end.

(** ** [AuditService] *)

(** [AuditService.log_action]; the result is the new row's [id], or
    [None]. *)
Definition log_action (action resource_type resource_id : option string)
    (old_values new_values : pyval) (business_context : option string)
    (risk_level : string) (compliance_flags : pyval) : M (option string) :=
  try_except
    (user_id <- getattr_g "user_id" (Some "system");;
     user_email <- getattr_g "user_email" None;;
     session_id <- getattr_g "session_id" None;;
     ip_address <- request_attr request_remote_addr;;
     user_agent <- request_attr request_user_agent;;
     http_method <- request_attr (fun r => Some (request_method r));;
     endpoint <- request_attr request_endpoint;;
     request_payload <- dump_request_json;;
     old_values' <- dump_if_truthy old_values;;
     new_values' <- dump_if_truthy new_values;;
     compliance_flags' <- dump_if_truthy compliance_flags;;
     audit_log <- db_session_add_commit
       (mk_AuditLog_new user_id user_email session_id ip_address user_agent
          action resource_type resource_id "financial-advanced"
          http_method endpoint request_payload old_values' new_values'
          business_context (Some risk_level) compliance_flags' "SUCCESS");;
     ret (Some (id audit_log)))
    (fun e =>
       _ <- print ("Audit logging failed: " +:+ exn_str e);;
       ret None).

(** [AuditService.log_error]. *)
Definition log_error (action resource_type : option string)
    (error_message : string) (resource_id : option string)
  : M (option string) :=
  log_action action resource_type resource_id PyNone PyNone
    (Some ("Error occurred: " +:+ error_message)) "HIGH" PyNone.

(** [str.upper] on a string of code points below 256: the letters
    [a]..[z] and the letters from U+00E0 to U+00FE (the division sign
    U+00F7 is not one) move down by 32, the sharp s U+00DF becomes [SS],
    and every other character stays.  The upper case of the micro sign
    U+00B5 and of U+00FF lies above U+00FF, outside the strings of this
    model, which leaves the two characters as they are. *)
Definition upper_char (c : ascii) : string :=
  let n := N_of_ascii c in
  if (((97 <=? n) && (n <=? 122))
      || ((224 <=? n) && (n <=? 254) && negb (n =? 247)))%N
  then String (ascii_of_N (n - 32)) ""
  else if (n =? 223)%N then "SS"
  else String c "".

Fixpoint upper (s : string) : string :=
  match s with
  | EmptyString => ""
  | String c s' => upper_char c +:+ upper s'
  end.

(** The upper case of [s] is a string of this model: [s] has neither
    the micro sign U+00B5 nor U+00FF. *)
Fixpoint upper_in_model (s : string) : bool :=
  match s with
  | EmptyString => true
  | String c s' =>
      negb ((N_of_ascii c =? 181) || (N_of_ascii c =? 255))%N
      && upper_in_model s'
  end.

(** [a or b] for an optional string [a]. *)
Definition py_or (a : option string) (b : string) : string :=
  match a with
  | Some s => if String.eqb s "" then b else s
  | None => b
  end.

(** [audit_required(action, resource_type, risk_level)(f)], called: [f]
    stands for the wrapped function applied to the call's arguments and
    [name] for [f.__name__]. *)
Definition audit_required {A} (action resource_type : option string)
    (risk_level : string) (name : string) (f : M A) : M A :=
  fun w0 =>
    let start_time := utcnow w0 in
    try_except
      (result <- f;;
       processing_time <- (fun w => (Returns (utcnow w - start_time), w));;
       _ <- log_action (Some (py_or action (upper name)))
              (Some (py_or resource_type "unknown")) None PyNone PyNone
              (Some ("Function " +:+ name +:+ " executed successfully"))
              risk_level PyNone;;
       ret result)
      (fun e =>
         _ <- log_error (Some (py_or action (upper name)))
                (Some (py_or resource_type "unknown")) (exn_str e) None;;
         raise e)
      w0.

(** ** [AuditService.get_audit_trail] *)

(** [if s:] for an optional string argument. *)
Definition given (a : option string) : option string :=
  match a with
  | Some s => if String.eqb s "" then None else Some s
  | None => None
  end.

(** [query.filter(column == s)] for the given string; SQL equality never
    holds for a NULL column. *)
Definition matches (a : option string) (column : option string) : bool :=
  match given a with
  | None => true
  | Some s => match column with
              | Some c => String.eqb c s
              | None => false
              end
  end.

(** The conjunction of the filters [get_audit_trail] adds to the query. *)
Definition in_trail (by_type by_resource by_user : option string)
    (start_date end_date : option Z) (r : AuditLog) : bool :=
  matches by_type (Some (resource_type r))
  && matches by_resource (resource_id r)
  && matches by_user (Some (user_id r))
  && match start_date with Some d => d <=? timestamp r | None => true end
  && match end_date with Some d => timestamp r <=? d | None => true end.

(** [ORDER BY timestamp DESC]: rows with equal timestamps keep their
    insertion order. *)
Fixpoint insert_desc (r : AuditLog) (l : list AuditLog) : list AuditLog :=
  match l with
  | [] => [r]
  | r' :: l' =>
      if timestamp r' <=? timestamp r then r :: r' :: l'
      else r' :: insert_desc r l'
  end.

Fixpoint order_by_timestamp_desc (l : list AuditLog) : list AuditLog :=
  match l with
  | [] => []
  | r :: l' => insert_desc r (order_by_timestamp_desc l')
  end.

(** The value of [limit] when the caller gives none. *)
Definition default_limit : nat := 100.

(** [AuditService.get_audit_trail].  [start_date] and [end_date] are
    [datetime] objects, which are always true; [limit] is [None] when the
    caller leaves the argument out.  An error of the database reaches the
    caller. *)
Definition get_audit_trail (resource_type resource_id user_id : option string)
    (start_date end_date : option Z) (limit : option nat)
  : M (list AuditLog) :=
  fun w =>
    match fault w with
    | Some msg => (Raises (OperationalError msg), w)
    | None =>
        (Returns
           (take (match limit with Some n => n | None => default_limit end)
              (order_by_timestamp_desc
                 (List.filter
                    (in_trail resource_type resource_id user_id
                       start_date end_date)
                    (rows w)))), w)
    end.

(** ** When the writer persists, and what

    These predicates are not part of the program: they say in which
    processes [log_action] reaches the INSERT, and name the facts about
    the row it inserts. *)

(** [json.dumps(v) if v else None] returns. *)
Definition dumpable (v : pyval) : bool :=
  if truthy v
  then match json_encode v with Some _ => true | None => false end
  else true.

(** The column [json.dumps(v) if v else None] is stored in. *)
Definition stored (v : pyval) : option string :=
  if truthy v then json_encode v else None.

(** An application context is active and [g.user_id] is not [None]; the
    session can run statements; the body of the request, if there is
    one, is read and serialized without an error; and the values taken
    from [g] and from the request fit their columns. *)
Definition audit_ready (w : World) : bool :=
  match app_ctx w with
  | None => false
  | Some g =>
      match g_attr g "user_id" (Some "system") with
      | Some _ => true
      | None => false
      end
      && (fits 50 (g_attr g "user_id" (Some "system"))
          && fits 100 (g_attr g "user_email" None)
          && fits 100 (g_attr g "session_id" None)
          && fits 45 (match request w with
                      | Some r => request_remote_addr r
                      | None => None
                      end)
          && fits 10 (match request w with
                      | Some r => Some (request_method r)
                      | None => None
                      end)
          && fits 200 (match request w with
                       | Some r => request_endpoint r
                       | None => None
                       end))
  end
  && match fault w with None => true | Some _ => false end
  && match request w with
     | None => true
     | Some rq =>
         match request_get_json rq with
         | Body body => dumpable body
         | BadRequest _ => false
         end
     end.

(** The arguments of a call of [log_action] can be stored: [action] and
    [resource_type] are not [None], and the strings fit their columns. *)
Definition storable (act rtype rid : option string) (risk : string) : bool :=
  match act, rtype with Some _, Some _ => true | _, _ => false end
  && (fits 100 act && fits 50 rtype && fits 50 rid && fits 20 (Some risk)).

(** The audit write of a call of [log_action] succeeds: the process is
    ready for the write, the arguments can be stored and the three
    payloads can be serialized. *)
Definition writer_writes (act rtype rid : option string) (old new : pyval)
    (risk : string) (flags : pyval) (w : World) : bool :=
  audit_ready w && storable act rtype rid risk
  && dumpable old && dumpable new && dumpable flags.

(** No [user_id] is bound: no application context is active, or [g] has
    no attribute [user_id]. *)
Definition no_user_bound (w : World) : bool :=
  match app_ctx w with
  | None => true
  | Some g => match g !! "user_id" with Some _ => false | None => true end
  end.

(** [r] is the row a call of [log_action] with these arguments inserts
    in the process [w]. *)
Definition row_of_call (act rtype rid : option string)
    (old new : pyval) (context : option string) (risk : string)
    (w : World) (r : AuditLog) : Prop :=
  id r = uuid4 w (uuid_drawn w)
  /\ timestamp r = utcnow w
  /\ (exists g, app_ctx w = Some g /\
       g_attr g "user_id" (Some "system") = Some (user_id r))
  /\ act = Some (action r)
  /\ rtype = Some (resource_type r)
  /\ resource_id r = rid
  /\ service_name r = "financial-advanced"
  /\ old_values r = stored old
  /\ new_values r = stored new
  /\ business_context r = context
  /\ risk_level r = Some risk
  /\ status r = Some "SUCCESS"
  /\ error_message r = None
  /\ processing_time_ms r = None.

(** The outcomes of the wrapped function for which the wrapper calls the
    writer: a normal return, and an error that [except Exception]
    catches. *)
Definition audited {A} (res : result A) : bool :=
  match res with
  | Returns _ => true
  | Raises e => is_Exception e
  end.

(** The [business_context] and the [risk_level] the wrapper passes to
    the writer after this outcome. *)
Definition wrapper_context {A} (name : string) (res : result A) : string :=
  match res with
  | Returns _ => "Function " +:+ name +:+ " executed successfully"
  | Raises e => "Error occurred: " +:+ exn_str e
  end.

Definition wrapper_risk {A} (risk : string) (res : result A) : string :=
  match res with
  | Returns _ => risk
  | Raises _ => "HIGH"
  end.

(** The wrapper's audit write succeeds: the wrapper calls the writer
    after this outcome, the process is ready for the write, and the
    arguments the wrapper passes can be stored. *)
Definition wrapper_writes {A} (act rtype : option string) (risk name : string)
    (res : result A) (w : World) : bool :=
  audited res && audit_ready w
  && storable (Some (py_or act (upper name))) (Some (py_or rtype "unknown"))
       None (wrapper_risk risk res).

(** ** What the trail query promises

    In the words of the specification: a filter that is supplied -- and,
    as the code has it, is not the empty string -- holds of the row;
    the time range includes both ends. *)
Definition selected (by_type by_resource by_user : option string)
    (start_date end_date : option Z) (r : AuditLog) : Prop :=
  (forall s, by_type = Some s -> s <> "" -> resource_type r = s)
  /\ (forall s, by_resource = Some s -> s <> "" -> resource_id r = Some s)
  /\ (forall s, by_user = Some s -> s <> "" -> user_id r = s)
  /\ (forall d, start_date = Some d -> d <= timestamp r)
  /\ (forall d, end_date = Some d -> timestamp r <= d).

(** Most recent first. *)
Definition not_before (a b : AuditLog) : Prop := timestamp b <= timestamp a.

(** A stored column deserializes to the payload that was written. *)
Definition round_trips (payload : pyval) (column : option string) : Prop :=
  exists text, column = Some text /\ json_loads text = Some payload.

(** What the column of a payload holds after a write: text that
    deserializes to the payload when the payload is true in Python, and
    NULL when it is [None] or empty. *)
Definition column_round_trips (payload : pyval) (column : option string)
  : Prop :=
  if truthy payload then round_trips payload column else column = None.

(** ** Example processes and operations *)

Definition uuid_of (n : nat) : string :=
  "id-" +:+ NilZero.string_of_uint (Nat.to_uint n).

(** An application context with no attribute on [g], no request, an empty
    table and a reachable database: a background job. *)
Definition background_job : World :=
  mk_World (Some ∅) None [] None 1700000000000000 uuid_of 0 [].

(** The same process when the database refuses connections. *)
Definition store_down : World :=
  mk_World (Some ∅) None [] (Some "connection refused")
           1700000000000000 uuid_of 0 [].

(** A request of the user [u-17] with a JSON body. *)
Definition user_request : World :=
  mk_World (Some {[ "user_id" := Some "u-17" ]})
           (Some (mk_Request (Some "10.0.0.7") (Some "curl/8.5") "POST"
                    (Some "create_payment")
                    (Body (PyDict [(PyStr "amount", PyInt 250)]))))
           [] None 1700000000000000 uuid_of 0 [].

Definition insufficient_funds : exn :=
  mk_exn "ValueError" "insufficient funds" true.

(** A wrapped operation that raises, and one that returns. *)
Definition create_payment : M pyval := raise insufficient_funds.

Definition healthy : pyval := PyDict [(PyStr "status", PyStr "healthy")].

Definition health_check : M pyval := ret healthy.

(** The process [w] when the clock shows [t]. *)
Definition at_time (t : Z) (w : World) : World :=
  mk_World (app_ctx w) (request w) (rows w) (fault w) t (uuid4 w)
           (uuid_drawn w) (stdout w).

(** The table after a payment and then, later, a project were logged. *)
Definition two_records : World :=
  snd (log_action (Some "UPDATE") (Some "project") (Some "P1")
         (PyDict [(PyStr "budget", PyInt 100)])
         (PyDict [(PyStr "budget", PyInt 120)]) None "MEDIUM" PyNone
         (at_time 1700000000000500
            (snd (log_action (Some "CREATE") (Some "payment") (Some "PAY-1")
                    PyNone (PyDict [(PyStr "amount", PyInt 250)]) None
                    "LOW" PyNone background_job)))).

(** ** Auxiliary definitions for the proofs *)

(** What [json.dumps(v) if v else None] does. *)
Definition dumped (v : pyval) : result (option string) :=
  if truthy v then
    match json_encode v with
    | Some s => Returns (Some s)
    | None => Raises (TypeError "Object is not JSON serializable")
    end
  else Returns None.

(** What [dump_request_json] does. *)
Definition dumped_request (w : World) : result (option string) :=
  match request w with
  | None => Returns None
  | Some r =>
      match request_get_json r with
      | Body v => dumped v
      | BadRequest description => Raises (mk_exn "BadRequest" description true)
      end
  end.

(** The two inner loops of [json_encode], on their own. *)
Fixpoint json_items (l : list pyval) : option string :=
  match l with
  | [] => Some ""
  | x :: l' =>
      a ← json_encode x;
      b ← json_items l';
      Some (a +:+ (match l' with [] => "" | _ => ", " end) +:+ b)
  end.

Fixpoint json_members (d : list (pyval * pyval)) : option string :=
  match d with
  | [] => Some ""
  | (k, x) :: d' =>
      t ← key_text k;
      a ← json_encode x;
      b ← json_members d';
      Some (encode_str t +:+ ": " +:+ a +:+
            (match d' with [] => "" | _ => ", " end) +:+ b)
  end.

(** The fuel [parse_value] needs to read back a value. *)
Fixpoint need (v : pyval) : nat :=
  let fix need_items (l : list pyval) : nat :=
    match l with
    | [] => O
    | x :: l' => S (Nat.max (need x) (need_items l'))
    end in
  let fix need_members (d : list (pyval * pyval)) : nat :=
    match d with
    | [] => O
    | p :: d' => S (Nat.max (need (snd p)) (need_members d'))
    end in
  match v with
  | PyList l => S (need_items l)
  | PyTuple l => S (need_items l)
  | PyDict d => S (need_members d)
  | _ => 1%nat
  end.

Fixpoint need_items (l : list pyval) : nat :=
  match l with
  | [] => O
  | x :: l' => S (Nat.max (need x) (need_items l'))
  end.

Fixpoint need_members (d : list (pyval * pyval)) : nat :=
  match d with
  | [] => O
  | p :: d' => S (Nat.max (need (snd p)) (need_members d'))
  end.

(** The key/value pairs the decoder reads from a dict whose keys are
    strings. *)
Definition str_pairs (d : list (pyval * pyval)) : list (string * pyval) :=
  omap (fun p => k ← key_str (fst p); Some (k, snd p)) d.

(** A text that cannot continue a number: it is empty or starts with a
    separator, a closing bracket or white space. *)
Definition terminated (s : string) : bool :=
  match s with
  | EmptyString => true
  | String c _ =>
      Ascii.eqb c "," || Ascii.eqb c "]" || Ascii.eqb c "}" || is_ws c
  end.

(** A value is read back: its text, followed by anything that ends it,
    parses to the value and leaves what follows. *)
Definition reads_back (v : pyval) : Prop :=
  json_native v = true ->
  forall t, json_encode v = Some t ->
  forall fuel r, (need v <= fuel)%nat -> terminated r = true ->
  parse_value fuel (t +:+ r) = Some (v, r).

(** A text that starts a value: white space is not skipped in front of
    it, and it closes neither a list nor a dict. *)
Definition starts_value (s : string) : bool :=
  match s with
  | EmptyString => false
  | String c _ => negb (is_ws c || Ascii.eqb c "]" || Ascii.eqb c "}")
  end.

(** ** The other columns of a written row

    Like the predicates above, these are not part of the program: they
    name what [log_action] puts in the columns of the row it inserts. *)

(** The columns taken from the request: its address, agent, method,
    endpoint and JSON body inside a request context, NULL outside. *)
Definition request_columns (w : World) (r : AuditLog) : Prop :=
  match request w with
  | Some rq =>
      ip_address r = request_remote_addr rq
      /\ user_agent r = request_user_agent rq
      /\ http_method r = Some (request_method rq)
      /\ endpoint r = request_endpoint rq
      /\ exists body,
           request_get_json rq = Body body /\ request_payload r = stored body
  | None =>
      ip_address r = None /\ user_agent r = None /\ http_method r = None
      /\ endpoint r = None /\ request_payload r = None
  end.

(** The columns taken from [g]. *)
Definition identity_columns (w : World) (r : AuditLog) : Prop :=
  exists g,
    app_ctx w = Some g
    /\ g_attr g "user_id" (Some "system") = Some (user_id r)
    /\ user_email r = g_attr g "user_email" None
    /\ session_id r = g_attr g "session_id" None.

(** The columns no argument of [log_action] reaches: they hold the
    literals of the call and the defaults of the table. *)
Definition literal_columns (r : AuditLog) : Prop :=
  service_name r = "financial-advanced"
  /\ status r = Some "SUCCESS"
  /\ error_message r = None
  /\ response_status r = None
  /\ response_payload r = None
  /\ processing_time_ms r = None
  /\ metadata r = None
  /\ retention_period_days r = Some 2555
  /\ archived r = Some false
  /\ archived_at r = None.

(** [log_action] reaches [db.session.add] with a session that can run
    statements: an application context is active, the body of the
    request and the three payloads are serialized without an error, and
    the session is not in a failed state. *)
Definition reaches_insert (w : World) (old new flags : pyval) : bool :=
  match app_ctx w with Some _ => true | None => false end
  && match request w with
     | None => true
     | Some rq =>
         match request_get_json rq with
         | Body body => dumpable body
         | BadRequest _ => false
         end
     end
  && dumpable old && dumpable new && dumpable flags
  && match fault w with None => true | Some _ => false end.

(** The statements between [try:] and [except] in [log_action], on
    their own: [log_action] is this body under its handler. *)
Definition log_action_try (action resource_type resource_id : option string)
    (old_values new_values : pyval) (business_context : option string)
    (risk_level : string) (compliance_flags : pyval) : M (option string) :=
  user_id <- getattr_g "user_id" (Some "system");;
  user_email <- getattr_g "user_email" None;;
  session_id <- getattr_g "session_id" None;;
  ip_address <- request_attr request_remote_addr;;
  user_agent <- request_attr request_user_agent;;
  http_method <- request_attr (fun r => Some (request_method r));;
  endpoint <- request_attr request_endpoint;;
  request_payload <- dump_request_json;;
  old_values' <- dump_if_truthy old_values;;
  new_values' <- dump_if_truthy new_values;;
  compliance_flags' <- dump_if_truthy compliance_flags;;
  audit_log <- db_session_add_commit
    (mk_AuditLog_new user_id user_email session_id ip_address user_agent
       action resource_type resource_id "financial-advanced"
       http_method endpoint request_payload old_values' new_values'
       business_context (Some risk_level) compliance_flags' "SUCCESS");;
  ret (Some (id audit_log)).

(** ** [main.py]: what runs before each request *)

(** The process as [main.py] sees it: the process of the audit code
    together with
    - [header]: [request.headers.get(name)] of the current request;
    - [request_start_time]: the attribute [g.request_start_time], a
      [datetime], when it is set;
    - [logged]: the messages given to [logger.info]. *)
Record Server : Type := mk_Server {
  process : World;
  header : string -> option string;
  request_start_time : option Z;
  logged : list string
}.

Definition SM (A : Type) : Type := Server -> result A * Server.

Definition sret {A} (a : A) : SM A := fun s => (Returns a, s).
Definition sbind {A B} (m : SM A) (k : A -> SM B) : SM B :=
  fun s => match m s with
           | (Returns a, s') => k a s'
           | (Raises e, s') => (Raises e, s')
           end.

Notation "x <~ m ;; k" := (sbind m (fun x => k))
  (at level 100, m at next level, right associativity).

(** A computation of the audit code, run by [main.py]. *)
Definition in_process {A} (m : M A) : SM A :=
  fun s => let (res, w) := m (process s) in
           (res, mk_Server w (header s) (request_start_time s) (logged s)).

(** [g.name = v] for an attribute that holds a string or [None]. *)
Definition setattr_g (name : string) (v : option string) : M unit :=
  fun w => match app_ctx w with
           | None =>
               (Raises (RuntimeError "Working outside of application context."), w)
           | Some g =>
               (Returns tt,
                mk_World (Some (<[name := v]> g)) (request w) (rows w)
                         (fault w) (utcnow w) (uuid4 w) (uuid_drawn w)
                         (stdout w))
           end.

(** [g.request_start_time = datetime.utcnow()]. *)
Definition set_request_start_time : SM unit :=
  fun s => match app_ctx (process s) with
           | None =>
               (Raises (RuntimeError "Working outside of application context."), s)
           | Some _ =>
               (Returns tt,
                mk_Server (process s) (header s)
                          (Some (utcnow (process s))) (logged s))
           end.

(** The object behind the proxy [request]; the proxy raises
    [RuntimeError] outside a request context. *)
Definition current_request : SM Request :=
  fun s => match request (process s) with
           | None =>
               (Raises (RuntimeError "Working outside of request context."), s)
           | Some rq => (Returns rq, s)
           end.

(** [request.headers.get(name)]. *)
Definition request_headers_get (name : string) : SM (option string) :=
  _ <~ current_request;; fun s => (Returns (header s name), s).

(** [logger.info(message)]. *)
Definition logger_info (message : string) : SM unit :=
  fun s => (Returns tt,
            mk_Server (process s) (header s) (request_start_time s)
                      (logged s ++ [message])).

(** [str(v)] for an optional string, as an f-string renders it. *)
Definition str_optional (v : option string) : string :=
  match v with
  | Some s => s
  | None => "None"
  end.

(** [ConfigService.AUDIT_CONFIG['enabled']] and
    [ConfigService.AUDIT_CONFIG['log_all_requests']]. *)
Definition AUDIT_CONFIG_enabled : bool := true.
Definition AUDIT_CONFIG_log_all_requests : bool := true.

(** [ConfigService.is_audit_enabled]. *)
Definition is_audit_enabled : bool := AUDIT_CONFIG_enabled.

(** [before_request] of [main.py]. *)
Definition before_request : SM unit :=
  _ <~ set_request_start_time;;
  user_id <~ request_headers_get "X-User-ID";;
  _ <~ in_process
         (setattr_g "user_id"
            (Some (match user_id with Some u => u | None => "anonymous" end)));;
  user_email <~ request_headers_get "X-User-Email";;
  _ <~ in_process (setattr_g "user_email" user_email);;
  session_id <~ request_headers_get "X-Session-ID";;
  _ <~ in_process (setattr_g "session_id" session_id);;
  if is_audit_enabled && AUDIT_CONFIG_log_all_requests then
    rq <~ current_request;;
    logger_info ("Request: " +:+ request_method rq +:+ " "
                 +:+ str_optional (request_endpoint rq) +:+ " from "
                 +:+ str_optional (request_remote_addr rq))
  else sret tt.

(** ** More example processes *)

(** A request whose body is not JSON. *)
Definition malformed_request : World :=
  mk_World (Some {[ "user_id" := Some "u-17" ]})
           (Some (mk_Request (Some "10.0.0.7") (Some "curl/8.5") "POST"
                    (Some "create_payment")
                    (BadRequest "Failed to decode JSON object")))
           [] None 1700000000000000 uuid_of 0 [].

(** A [GET /health] as the application of [main.py] receives it, before
    [before_request] ran: [g] has no attribute yet; the request has no
    JSON content type, so that [get_json()] raises; and [main.py]
    initialises the [db] of [financial_models] only, so that the session
    of the audit module cannot run a statement. *)
Definition incoming (header : string -> option string) : Server :=
  mk_Server
    (mk_World (Some ∅)
       (Some (mk_Request (Some "10.0.0.7") (Some "curl/8.5") "GET"
                (Some "health_check")
                (BadRequest "Did not attempt to load JSON data because the request Content-Type was not 'application/json'.")))
       []
       (Some "The current Flask app is not registered with this 'SQLAlchemy' instance.")
       1700000000000000 uuid_of 0 [])
    header None [].

(** The headers of a client that the authentication service let through
    as [u-17], and of one that sends no header. *)
Definition headers_of_u17 (name : string) : option string :=
  if String.eqb name "X-User-ID" then Some "u-17"
  else if String.eqb name "X-Session-ID" then Some "s-1"
  else None.

Definition no_headers (name : string) : option string := None.

(** A thread that pushed no application context. *)
Definition worker_thread : World :=
  mk_World None None [] None 1700000000000000 uuid_of 0 [].

(** The server after [before_request] ran. *)
Definition prepared (s : Server) : Server := snd (before_request s).

(** An error that does not derive from [Exception], and an operation
    that a signal interrupts. *)
Definition keyboard_interrupt : exn := mk_exn "KeyboardInterrupt" "" false.

Definition interrupted_job : M pyval := raise keyboard_interrupt.

(** * Properties *)

(** ** JSON: what is written is read back *)

Section pyval_induction.
Variable P : pyval -> Prop.
Hypothesis HNone : P PyNone.
Hypothesis HBool : forall b, P (PyBool b).
Hypothesis HInt : forall z, P (PyInt z).
Hypothesis HStr : forall s, P (PyStr s).
Hypothesis HList : forall l, Forall P l -> P (PyList l).
Hypothesis HTuple : forall l, Forall P l -> P (PyTuple l).
Hypothesis HDict : forall d, Forall (fun p => P (snd p)) d -> P (PyDict d).
Hypothesis HObject : forall r b, P (PyObject r b).

Fixpoint pyval_nested_ind (v : pyval) : P v :=
  match v with
  | PyNone => HNone
  | PyBool b => HBool b
  | PyInt z => HInt z
  | PyStr s => HStr s
  | PyList l =>
      HList l ((fix go (l : list pyval) : Forall P l :=
                  match l with
                  | [] => List.Forall_nil P
                  | x :: l' => List.Forall_cons P x l' (pyval_nested_ind x) (go l')
                  end) l)
  | PyTuple l =>
      HTuple l ((fix go (l : list pyval) : Forall P l :=
                   match l with
                   | [] => List.Forall_nil P
                   | x :: l' => List.Forall_cons P x l' (pyval_nested_ind x) (go l')
                   end) l)
  | PyDict d =>
      HDict d ((fix go (d : list (pyval * pyval))
                  : Forall (fun p => P (snd p)) d :=
                  match d with
                  | [] => List.Forall_nil _
                  | p :: d' =>
                      List.Forall_cons (fun p => P (snd p)) p d'
                        (pyval_nested_ind (snd p)) (go d')
                  end) d)
  | PyObject r b => HObject r b
  end.
End pyval_induction.

Lemma json_encode_list l :
  json_encode (PyList l) = b ← json_items l; Some ("[" +:+ b +:+ "]").
Proof. reflexivity. Qed.

Lemma json_encode_tuple l :
  json_encode (PyTuple l) = b ← json_items l; Some ("[" +:+ b +:+ "]").
Proof. reflexivity. Qed.

Lemma json_encode_dict d :
  json_encode (PyDict d) = b ← json_members d; Some ("{" +:+ b +:+ "}").
Proof. reflexivity. Qed.

Lemma need_list l : need (PyList l) = S (need_items l).
Proof. reflexivity. Qed.

Lemma need_dict d : need (PyDict d) = S (need_members d).
Proof. reflexivity. Qed.

(** *** Strings *)

Local Arguments String.append !_ _ / : simpl nomatch.

Lemma string_app_assoc (a b c : string) : (a +:+ b) +:+ c = a +:+ (b +:+ c).
Proof. induction a as [|x a IH]; simpl; [reflexivity|]. by rewrite IH. Qed.

Lemma string_length_app (a b : string) :
  String.length (a +:+ b) = (String.length a + String.length b)%nat.
Proof. induction a as [|x a IH]; simpl; [reflexivity|]. by rewrite IH. Qed.

Lemma scan_string_String c s' :
  scan_string (String c s') =
    if Ascii.eqb c dquote then Some ("", s')
    else if Ascii.eqb c backslash then
      match s' with
      | EmptyString => None
      | String e s'' =>
          if Ascii.eqb e "u" then
            match s'' with
            | String h1 (String h2 (String h3 (String h4 s3))) =>
                a ← hex_value h1; b ← hex_value h2;
                c ← hex_value h3; d ← hex_value h4;
                let n := (((a * 16 + b) * 16 + c) * 16 + d)%N in
                if (n <? 256)%N then
                  '(t, r) ← scan_string s3; Some (String (ascii_of_N n) t, r)
                else None
            | _ => None
            end
          else
            x ← unescape e;
            '(t, r) ← scan_string s''; Some (String x t, r)
      end
    else if (N_of_ascii c <? 32)%N then None
    else '(t, r) ← scan_string s'; Some (String c t, r).
Proof. reflexivity. Qed.

Lemma scan_string_escape_char c x t r :
  scan_string x = Some (t, r) ->
  scan_string (escape_char c +:+ x) = Some (String c t, r).
Proof.
  intros H.
  destruct c as [[] [] [] [] [] [] [] []];
    match goal with
    | |- context [escape_char ?c] =>
        let e := eval vm_compute in (escape_char c) in
        change (escape_char c) with e
    end;
    cbn [String.append]; rewrite scan_string_String;
    cbv -[scan_string String.append]; rewrite H; reflexivity.
Qed.

Lemma scan_string_escape s rest :
  scan_string (escape_string s +:+ String dquote rest) = Some (s, rest).
Proof.
  induction s as [|c s IH]; [reflexivity|].
  cbn [escape_string]. rewrite string_app_assoc.
  by apply scan_string_escape_char.
Qed.

(** *** Integers *)

Lemma terminated_scan_digits r :
  terminated r = true -> scan_digits r = (Nil, r) /\ starts_fraction r = false.
Proof.
  destruct r as [|c r]; [done|].
  destruct c as [[] [] [] [] [] [] [] []]; intros H; cbv in H;
    try discriminate H; split; reflexivity.
Qed.

Lemma scan_digits_uint d r :
  terminated r = true ->
  scan_digits (NilEmpty.string_of_uint d +:+ r) = (d, r).
Proof.
  intros Hr. induction d; cbn [NilEmpty.string_of_uint String.append];
    [by apply terminated_scan_digits|..];
    cbn [scan_digits digit_of]; simpl; by rewrite IHd.
Qed.

Lemma scan_number_digits (negative : bool) d r :
  d <> Nil -> unorm d = d -> terminated r = true ->
  scan_number ((if negative then "-" else "") +:+
               NilEmpty.string_of_uint d +:+ r) =
    Some (if negative then (- Z.of_N (N.of_uint d))%Z
          else Z.of_N (N.of_uint d), r).
Proof.
  intros Hd Hn Hr. unfold scan_number.
  assert (Hscan := scan_digits_uint d r Hr).
  destruct negative.
  - cbn [String.append]. rewrite Hscan.
    destruct (uint_eq_dec d Nil) as [|_]; [done|].
    destruct (uint_eq_dec (unorm d) d) as [_|]; [|done].
    by rewrite (proj2 (terminated_scan_digits r Hr)).
  - cbn [String.append].
    assert (match NilEmpty.string_of_uint d +:+ r with
            | String "-" s' => (true, s')
            | _ => (false, NilEmpty.string_of_uint d +:+ r)
            end = (false, NilEmpty.string_of_uint d +:+ r)) as ->.
    { destruct d; [done|..]; reflexivity. }
    rewrite Hscan.
    destruct (uint_eq_dec d Nil) as [|_]; [done|].
    destruct (uint_eq_dec (unorm d) d) as [_|]; [|done].
    by rewrite (proj2 (terminated_scan_digits r Hr)).
Qed.

Lemma pos_to_uint_canonical p : unorm (Pos.to_uint p) = Pos.to_uint p.
Proof.
  rewrite <- (DecimalPos.Unsigned.to_of (Pos.to_uint p)).
  by rewrite DecimalPos.Unsigned.of_to.
Qed.

Lemma scan_number_str_int z r :
  terminated r = true -> scan_number (str_int z +:+ r) = Some (z, r).
Proof.
  intros Hr. unfold str_int. destruct z as [|p|p]; cbn [Z.to_int].
  - change (NilZero.string_of_int (Pos zero)) with
      ("" +:+ NilEmpty.string_of_uint (D0 Nil)).
    rewrite string_app_assoc.
    by rewrite (scan_number_digits false (D0 Nil) r).
  - pose proof (DecimalPos.Unsigned.to_uint_nonnil p) as Hnil.
    assert (NilZero.string_of_int (Pos (Pos.to_uint p)) =
            "" +:+ NilEmpty.string_of_uint (Pos.to_uint p)) as ->.
    { cbn. unfold NilZero.string_of_uint. by destruct (Pos.to_uint p). }
    rewrite string_app_assoc.
    rewrite (scan_number_digits false); [|done|apply pos_to_uint_canonical|done].
    change (N.of_uint (Pos.to_uint p)) with (Pos.of_uint (Pos.to_uint p)).
    by rewrite DecimalPos.Unsigned.of_to.
  - pose proof (DecimalPos.Unsigned.to_uint_nonnil p) as Hnil.
    assert (NilZero.string_of_int (Neg (Pos.to_uint p)) =
            "-" +:+ NilEmpty.string_of_uint (Pos.to_uint p)) as ->.
    { cbn. unfold NilZero.string_of_uint. by destruct (Pos.to_uint p). }
    rewrite string_app_assoc.
    rewrite (scan_number_digits true); [|done|apply pos_to_uint_canonical|done].
    change (N.of_uint (Pos.to_uint p)) with (Pos.of_uint (Pos.to_uint p)).
    by rewrite DecimalPos.Unsigned.of_to.
Qed.

(** *** Values *)

Lemma string_app_nil_r (a : string) : a +:+ "" = a.
Proof. induction a as [|x a IH]; simpl; [reflexivity|]. by rewrite IH. Qed.

Lemma skip_ws_starts_value x : starts_value x = true -> skip_ws x = x.
Proof.
  destruct x as [|c x]; [done|]. cbn. by destruct (is_ws c).
Qed.

Lemma expect_close_list x : starts_value x = true -> expect "]" x = None.
Proof.
  destruct x as [|c x]; [done|]. cbn.
  destruct (is_ws c), (Ascii.eqb c "]"); done.
Qed.

Lemma expect_close_dict x : starts_value x = true -> expect "}" x = None.
Proof.
  destruct x as [|c x]; [done|]. cbn.
  destruct (is_ws c), (Ascii.eqb c "]"), (Ascii.eqb c "}"); done.
Qed.

Lemma string_of_uint_head d r :
  d <> Nil ->
  starts_value (NilEmpty.string_of_uint d +:+ r) = true /\
  (1 <= String.length (NilEmpty.string_of_uint d))%nat.
Proof. destruct d; [done|..]; intros _; cbn; split; (reflexivity || lia). Qed.

Lemma str_int_head z r :
  starts_value (str_int z +:+ r) = true /\ (1 <= String.length (str_int z))%nat.
Proof.
  unfold str_int. destruct z as [|p|p]; cbn [Z.to_int].
  - split; [reflexivity|cbn; lia].
  - pose proof (DecimalPos.Unsigned.to_uint_nonnil p) as Hnil.
    assert (NilZero.string_of_int (Pos (Pos.to_uint p)) =
            NilEmpty.string_of_uint (Pos.to_uint p)) as ->.
    { cbn. unfold NilZero.string_of_uint. by destruct (Pos.to_uint p). }
    by apply string_of_uint_head.
  - split; [reflexivity|cbn; lia].
Qed.

Lemma json_encode_starts_value v t r :
  json_encode v = Some t -> starts_value (t +:+ r) = true.
Proof.
  destruct v as [|[]|z|s|l|l|d|o tr]; try (intros [= <-]; reflexivity).
  - intros [= <-]. apply str_int_head.
  - rewrite json_encode_list. destruct (json_items l); [|done].
    by intros [= <-].
  - rewrite json_encode_tuple. destruct (json_items l); [|done].
    by intros [= <-].
  - rewrite json_encode_dict. destruct (json_members d); [|done].
    by intros [= <-].
Qed.

Lemma json_items_starts_value x l b r :
  json_items (x :: l) = Some b -> starts_value (b +:+ r) = true.
Proof.
  cbn [json_items]. destruct (json_encode x) as [a|] eqn:Ha; [|done].
  destruct (json_items l) as [b'|]; [|done].
  intros [= <-]. rewrite string_app_assoc.
  by apply (json_encode_starts_value x).
Qed.

Lemma json_members_starts_value p d b r :
  json_members (p :: d) = Some b -> starts_value (b +:+ r) = true.
Proof.
  destruct p as [k x]. cbn [json_members].
  destruct (key_text k) as [t|]; [|done].
  destruct (json_encode x) as [a|]; [|done].
  destruct (json_members d) as [b'|]; [|done].
  by intros [= <-].
Qed.

Lemma parse_value_S fuel s :
  parse_value (S fuel) s =
    match scan_number s with
    | Some (z, r) => Some (PyInt z, r)
    | None =>
        match s with
        | EmptyString => None
        | String c s' =>
            if Ascii.eqb c dquote then
              '(t, r) ← scan_string s'; Some (PyStr t, r)
            else if Ascii.eqb c "[" then
              match expect "]" (skip_ws s') with
              | Some r => Some (PyList [], r)
              | None =>
                  '(l, r) ← parse_items fuel (skip_ws s');
                  Some (PyList l, r)
              end
            else if Ascii.eqb c "{" then
              match expect "}" (skip_ws s') with
              | Some r => Some (PyDict [], r)
              | None =>
                  '(m, r) ← parse_members fuel (skip_ws s');
                  Some (PyDict (dict_of_pairs m), r)
              end
            else
              match strip_prefix "null" s with
              | Some r => Some (PyNone, r)
              | None =>
                  match strip_prefix "true" s with
                  | Some r => Some (PyBool true, r)
                  | None =>
                      match strip_prefix "false" s with
                      | Some r => Some (PyBool false, r)
                      | None => None
                      end
                  end
              end
        end
    end.
Proof. reflexivity. Qed.

Lemma parse_items_S fuel s :
  parse_items (S fuel) s =
    '(v, r) ← parse_value fuel s;
    match expect "," (skip_ws r) with
    | Some r' =>
        '(l, r'') ← parse_items fuel (skip_ws r'); Some (v :: l, r'')
    | None =>
        match expect "]" (skip_ws r) with
        | Some r' => Some ([v], r')
        | None => None
        end
    end.
Proof. reflexivity. Qed.

Lemma parse_members_S fuel s :
  parse_members (S fuel) s =
    s' ← expect dquote s;
    '(k, r) ← scan_string s';
    r1 ← expect ":" (skip_ws r);
    '(v, r2) ← parse_value fuel (skip_ws r1);
    match expect "," (skip_ws r2) with
    | Some r3 =>
        '(m, r4) ← parse_members fuel (skip_ws r3);
        Some ((k, v) :: m, r4)
    | None =>
        match expect "}" (skip_ws r2) with
        | Some r3 => Some ([(k, v)], r3)
        | None => None
        end
    end.
Proof. reflexivity. Qed.

Lemma skip_space X : starts_value X = true -> skip_ws (" " +:+ X) = X.
Proof. intros H. by rewrite <- (skip_ws_starts_value X H) at 2. Qed.

Lemma expect_comma X : expect "," (skip_ws (", " +:+ X)) = Some (" " +:+ X).
Proof. reflexivity. Qed.

Lemma expect_colon X : expect ":" (skip_ws (": " +:+ X)) = Some (" " +:+ X).
Proof. reflexivity. Qed.

Lemma expect_end_list r :
  expect "," (skip_ws ("]" +:+ r)) = None /\
  expect "]" (skip_ws ("]" +:+ r)) = Some r.
Proof. split; reflexivity. Qed.

Lemma expect_end_dict r :
  expect "," (skip_ws ("}" +:+ r)) = None /\
  expect "}" (skip_ws ("}" +:+ r)) = Some r.
Proof. split; reflexivity. Qed.

Ltac option_bind := unfold mbind, option_bind; cbv beta iota.
Ltac option_bind_in H := unfold mbind, option_bind in H; cbv beta iota in H.

Lemma parse_items_json l :
  Forall reads_back l -> forallb json_native l = true -> l <> [] ->
  forall b, json_items l = Some b ->
  forall fuel r, (need_items l <= fuel)%nat ->
  parse_items fuel (b +:+ "]" +:+ r) = Some (l, r).
Proof.
  induction l as [|x l IH]; [done|].
  intros HF Hn _ b Hb fuel r Hfuel.
  inversion HF as [|? ? Hx HF']; subst.
  cbn [forallb] in Hn. apply andb_true_iff in Hn as [Hnx Hnl].
  cbn [json_items] in Hb.
  destruct (json_encode x) as [a|] eqn:Ha; [|done].
  destruct (json_items l) as [b'|] eqn:Hb'; [|done].
  injection Hb as <-.
  cbn [need_items] in Hfuel. destruct fuel as [|f]; [lia|].
  rewrite parse_items_S, !string_app_assoc.
  destruct l as [|y l].
  - injection Hb' as <-.
    change (a +:+ "" +:+ "" +:+ "]" +:+ r) with (a +:+ "]" +:+ r).
    rewrite (Hx Hnx a Ha f ("]" +:+ r)); [|lia|reflexivity].
    option_bind.
    by rewrite (proj1 (expect_end_list r)), (proj2 (expect_end_list r)).
  - rewrite (Hx Hnx a Ha f (", " +:+ b' +:+ "]" +:+ r)); [|lia|reflexivity].
    option_bind. rewrite expect_comma.
    rewrite skip_space by (by apply (json_items_starts_value y l)).
    rewrite (IH HF' Hnl ltac:(done) b' eq_refl f r); [done|lia].
Qed.

Lemma key_str_inv k s : key_str k = Some s -> k = PyStr s.
Proof. destruct k; intros [= <-]; reflexivity. Qed.

Ltac norm_app :=
  repeat (progress cbn [String.append] || rewrite string_app_assoc).

Lemma skip_space_cons X : starts_value X = true -> skip_ws (String " " X) = X.
Proof. apply skip_space. Qed.

Lemma parse_members_json d :
  Forall (fun p => reads_back (snd p)) d ->
  forallb (fun p => bool_decide (is_Some (key_str (fst p)))) d = true ->
  forallb (fun p => json_native (snd p)) d = true -> d <> [] ->
  forall b, json_members d = Some b ->
  forall fuel r, (need_members d <= fuel)%nat ->
  parse_members fuel (b +:+ "}" +:+ r) = Some (str_pairs d, r).
Proof.
  induction d as [|[k x] d IH]; [done|].
  intros HF Hk Hn _ b Hb fuel r Hfuel.
  inversion HF as [|? ? Hx HF']; subst. cbn [snd] in Hx.
  cbn [forallb fst snd] in Hk, Hn.
  apply andb_true_iff in Hk as [Hkx Hkd].
  apply andb_true_iff in Hn as [Hnx Hnd].
  apply bool_decide_eq_true in Hkx as [s Hs].
  apply key_str_inv in Hs as ->.
  cbn [json_members key_text] in Hb. option_bind_in Hb.
  destruct (json_encode x) as [a|] eqn:Ha; [|done].
  destruct (json_members d) as [b'|] eqn:Hb'; [|done].
  injection Hb as <-.
  cbn [need_members snd] in Hfuel. destruct fuel as [|f]; [lia|].
  rewrite parse_members_S. unfold str_pairs.
  cbn [omap list_omap fst snd key_str]. option_bind. fold (str_pairs d).
  unfold encode_str.
  assert (Hsep : forall X, starts_value X = true ->
            expect ":" (skip_ws (String ":" (String " " X))) = Some (String " " X))
    by reflexivity.
  destruct d as [|q d].
  - injection Hb' as <-. norm_app.
    change (expect dquote (String dquote ?X)) with (Some X). cbv beta iota.
    rewrite scan_string_escape. cbv beta iota.
    rewrite Hsep by (by apply (json_encode_starts_value x)).
    rewrite skip_space_cons by (by apply (json_encode_starts_value x)).
    rewrite (Hx Hnx a Ha f); [|lia|reflexivity].
    reflexivity.
  - norm_app.
    change (expect dquote (String dquote ?X)) with (Some X). cbv beta iota.
    rewrite scan_string_escape. cbv beta iota.
    rewrite Hsep by (by apply (json_encode_starts_value x)).
    rewrite skip_space_cons by (by apply (json_encode_starts_value x)).
    rewrite (Hx Hnx a Ha f); [|lia|reflexivity].
    cbv beta iota.
    change (expect "," (skip_ws (String "," ?X))) with (Some X).
    cbv beta iota.
    rewrite skip_space_cons
      by (by apply (json_members_starts_value q d b' (String "}" r))).
    change (b' +:+ String "}" r) with (b' +:+ "}" +:+ r).
    rewrite (IH HF' Hkd Hnd ltac:(done) b' eq_refl f r); [done|lia].
Qed.

(** *** Dicts *)

Lemma dict_set_fresh k v acc :
  Forall (fun p => fst p <> PyStr k) acc ->
  dict_set k v acc = acc ++ [(PyStr k, v)].
Proof.
  induction 1 as [|[k' v'] acc Hk _ IH]; [reflexivity|].
  cbn [dict_set fst] in *.
  destruct k' as [| | |s| | | |]; try (by rewrite IH).
  destruct (String.eqb_spec s k) as [->|_]; [done|by rewrite IH].
Qed.

Lemma existsb_eqb_false x (l : list string) :
  existsb (String.eqb x) l = false -> Forall (fun y => y <> x) l.
Proof.
  induction l as [|y l IH]; [constructor|].
  cbn [existsb]. intros [Hy Hl]%orb_false_iff. constructor; [|by apply IH].
  intros ->. by rewrite String.eqb_refl in Hy.
Qed.

Lemma dict_of_pairs_fresh pairs acc :
  distinct (map fst pairs) = true ->
  Forall (fun p => Forall (fun q => fst p <> PyStr (fst q)) pairs) acc ->
  fold_left (fun d p => dict_set (fst p) (snd p) d) pairs acc =
    acc ++ map (fun q => (PyStr (fst q), snd q)) pairs.
Proof.
  revert acc. induction pairs as [|[k v] pairs IH]; intros acc Hd Hacc.
  - cbn. by rewrite app_nil_r.
  - cbn [map fst distinct] in Hd.
    apply andb_true_iff in Hd as [Hk%negb_true_iff Hd].
    apply existsb_eqb_false in Hk.
    cbn [fold_left map fst snd].
    rewrite dict_set_fresh.
    2:{ eapply Forall_impl; [exact Hacc|].
        intros p Hp. by inversion Hp. }
    rewrite IH; [by rewrite <- app_assoc|done|].
    apply Forall_app. split.
    + eapply Forall_impl; [exact Hacc|]. intros p Hp. by inversion Hp.
    + constructor; [|constructor]. cbn [fst].
      apply List.Forall_forall. intros q Hq.
      rewrite List.Forall_forall in Hk.
      specialize (Hk (fst q) (in_map fst _ _ Hq)). congruence.
Qed.

Lemma str_pairs_keys d :
  forallb (fun p => bool_decide (is_Some (key_str (fst p)))) d = true ->
  map fst (str_pairs d) = omap (fun p => key_str (fst p)) d /\
  map (fun q => (PyStr (fst q), snd q)) (str_pairs d) = d.
Proof.
  induction d as [|[k x] d IH]; [done|].
  cbn [forallb fst]. intros [Hk Hd]%andb_true_iff.
  apply bool_decide_eq_true in Hk as [s Hs].
  apply key_str_inv in Hs as ->.
  destruct (IH Hd) as [IH1 IH2].
  change (str_pairs ((PyStr s, x) :: d)) with ((s, x) :: str_pairs d).
  change (omap (fun p => key_str (fst p)) ((PyStr s, x) :: d))
    with (s :: omap (fun p => key_str (fst p)) d).
  cbn [map fst snd]. by rewrite IH1, IH2.
Qed.

Lemma dict_of_str_pairs d :
  forallb (fun p => bool_decide (is_Some (key_str (fst p)))) d = true ->
  distinct (omap (fun p => key_str (fst p)) d) = true ->
  dict_of_pairs (str_pairs d) = d.
Proof.
  intros Hk Hd. destruct (str_pairs_keys d Hk) as [H1 H2].
  unfold dict_of_pairs. rewrite dict_of_pairs_fresh; [done| |constructor].
  by rewrite H1.
Qed.

(** *** The text of a value parses back to it *)

Lemma parse_value_json v : reads_back v.
Proof.
  induction v as [|b|z|s|l IH|l IH|d IH|o tr] using pyval_nested_ind;
    intros Hn t Ht fuel r Hfuel Hr; try discriminate Hn.
  - injection Ht as <-. destruct fuel as [|f]; [cbn in Hfuel; lia|].
    reflexivity.
  - destruct fuel as [|f]; [cbn in Hfuel; lia|].
    destruct b; injection Ht as <-; reflexivity.
  - injection Ht as <-. destruct fuel as [|f]; [cbn in Hfuel; lia|].
    rewrite parse_value_S. by rewrite scan_number_str_int.
  - injection Ht as <-. destruct fuel as [|f]; [cbn in Hfuel; lia|].
    rewrite parse_value_S. unfold encode_str. norm_app.
    change (scan_number (String dquote ?X)) with (@None (Z * string)).
    cbv beta iota.
    change (Ascii.eqb dquote dquote) with true. cbv beta iota.
    by rewrite scan_string_escape.
  - rewrite json_encode_list in Ht.
    destruct (json_items l) as [b|] eqn:Hb; [|done]. injection Ht as <-.
    rewrite need_list in Hfuel. destruct fuel as [|f]; [lia|].
    cbn [json_native] in Hn.
    destruct l as [|x l].
    + injection Hb as <-. reflexivity.
    + rewrite parse_value_S. norm_app.
      change (scan_number (String "[" ?X)) with (@None (Z * string)).
      cbv beta iota.
      change (Ascii.eqb "[" dquote) with false.
      change (Ascii.eqb "[" "[") with true. cbv beta iota.
      assert (Hs : starts_value (b +:+ String "]" r) = true)
        by (by apply (json_items_starts_value x l)).
      rewrite (skip_ws_starts_value _ Hs), (expect_close_list _ Hs).
      change (b +:+ String "]" r) with (b +:+ "]" +:+ r).
      by rewrite (parse_items_json (x :: l) IH Hn ltac:(done) b Hb f r
                    ltac:(lia)).
  - rewrite json_encode_dict in Ht.
    destruct (json_members d) as [b|] eqn:Hb; [|done]. injection Ht as <-.
    rewrite need_dict in Hfuel. destruct fuel as [|f]; [lia|].
    cbn [json_native] in Hn.
    apply andb_true_iff in Hn as [[Hk Hd]%andb_true_iff Hn].
    destruct d as [|p d].
    + injection Hb as <-. reflexivity.
    + rewrite parse_value_S. norm_app.
      change (scan_number (String "{" ?X)) with (@None (Z * string)).
      cbv beta iota.
      change (Ascii.eqb "{" dquote) with false.
      change (Ascii.eqb "{" "[") with false.
      change (Ascii.eqb "{" "{") with true. cbv beta iota.
      assert (Hs : starts_value (b +:+ String "}" r) = true)
        by (by apply (json_members_starts_value p d)).
      rewrite (skip_ws_starts_value _ Hs), (expect_close_dict _ Hs).
      change (b +:+ String "}" r) with (b +:+ "}" +:+ r).
      rewrite (parse_members_json (p :: d) IH Hk Hn ltac:(done) b Hb f r
                 ltac:(lia)).
      option_bind. by rewrite dict_of_str_pairs.
Qed.

Lemma need_items_le l :
  Forall (fun x => forall t, json_encode x = Some t ->
                             (need x <= String.length t)%nat) l ->
  forall b, json_items l = Some b -> (need_items l <= S (String.length b))%nat.
Proof.
  induction 1 as [|x l Hx _ IH]; intros b Hb; [cbn; lia|].
  cbn [json_items] in Hb. option_bind_in Hb.
  destruct (json_encode x) as [a|]; [|done].
  destruct (json_items l) as [b'|]; [|done].
  injection Hb as <-. specialize (Hx a eq_refl). specialize (IH b' eq_refl).
  cbn [need_items].
  destruct l; cbn [need_items] in *;
    repeat first [rewrite string_length_app | progress cbn [String.length]]; lia.
Qed.

Lemma need_members_le d :
  Forall (fun p => forall t, json_encode (snd p) = Some t ->
                             (need (snd p) <= String.length t)%nat) d ->
  forall b, json_members d = Some b ->
  (need_members d <= S (String.length b))%nat.
Proof.
  induction 1 as [|[k x] d Hx _ IH]; intros b Hb; [cbn; lia|].
  cbn [snd] in Hx. cbn [json_members] in Hb. option_bind_in Hb.
  destruct (key_text k) as [t|]; [|done].
  destruct (json_encode x) as [a|]; [|done].
  destruct (json_members d) as [b'|]; [|done].
  injection Hb as <-. specialize (Hx a eq_refl). specialize (IH b' eq_refl).
  change (need_members ((k, x) :: d))
    with (S (Nat.max (need x) (need_members d))).
  destruct d; cbn [need_members] in *;
    repeat first [rewrite string_length_app | progress cbn [String.length]]; lia.
Qed.

Lemma need_le_length v :
  forall t, json_encode v = Some t -> (need v <= String.length t)%nat.
Proof.
  induction v as [|b|z|s|l IH|l IH|d IH|o tr] using pyval_nested_ind;
    intros t Ht.
  - injection Ht as <-. cbn. lia.
  - destruct b; injection Ht as <-; cbn; lia.
  - injection Ht as <-. cbn [need]. apply (str_int_head z "").
  - injection Ht as <-. cbn. lia.
  - rewrite json_encode_list in Ht.
    destruct (json_items l) as [b|] eqn:Hb; [|done]. injection Ht as <-.
    rewrite need_list. pose proof (need_items_le l IH b Hb).
    repeat first [rewrite string_length_app | progress cbn [String.length]]. lia.
  - rewrite json_encode_tuple in Ht.
    destruct (json_items l) as [b|] eqn:Hb; [|done]. injection Ht as <-.
    change (need (PyTuple l)) with (S (need_items l)).
    pose proof (need_items_le l IH b Hb).
    repeat first [rewrite string_length_app | progress cbn [String.length]]. lia.
  - rewrite json_encode_dict in Ht.
    destruct (json_members d) as [b|] eqn:Hb; [|done]. injection Ht as <-.
    rewrite need_dict. pose proof (need_members_le d IH b Hb).
    repeat first [rewrite string_length_app | progress cbn [String.length]]. lia.
  - done.
Qed.

Lemma json_items_native l :
  Forall (fun x => json_native x = true -> is_Some (json_encode x)) l ->
  forallb json_native l = true -> is_Some (json_items l).
Proof.
  induction 1 as [|x l Hx _ IH]; [by eexists|].
  cbn [forallb]. intros [Hnx Hnl]%andb_true_iff.
  destruct (Hx Hnx) as [a Ha], (IH Hnl) as [b Hb].
  cbn [json_items]. rewrite Ha, Hb. by eexists.
Qed.

Lemma json_members_native d :
  Forall (fun p => json_native (snd p) = true ->
                   is_Some (json_encode (snd p))) d ->
  forallb (fun p => bool_decide (is_Some (key_str (fst p)))) d = true ->
  forallb (fun p => json_native (snd p)) d = true ->
  is_Some (json_members d).
Proof.
  induction 1 as [|[k x] d Hx _ IH]; [by eexists|].
  cbn [forallb fst snd] in *.
  intros [Hk Hkd]%andb_true_iff [Hnx Hnd]%andb_true_iff.
  apply bool_decide_eq_true in Hk as [s Hs].
  apply key_str_inv in Hs as ->.
  destruct (Hx Hnx) as [a Ha], (IH Hkd Hnd) as [b Hb].
  cbn [json_members key_text]. option_bind. rewrite Ha, Hb. by eexists.
Qed.

Lemma json_encode_native v : json_native v = true -> is_Some (json_encode v).
Proof.
  induction v as [|b|z|s|l IH|l IH|d IH|o tr] using pyval_nested_ind;
    intros Hn; try discriminate Hn; try (by eexists).
  - by destruct b; eexists.
  - rewrite json_encode_list.
    destruct (json_items_native l IH Hn) as [b ->]. by eexists.
  - cbn [json_native] in Hn.
    apply andb_true_iff in Hn as [[Hk _]%andb_true_iff Hn].
    rewrite json_encode_dict.
    destruct (json_members_native d IH Hk Hn) as [b ->]. by eexists.
Qed.

(** [json.loads(json.dumps(v)) == v] for every payload JSON represents
    as it is. *)
Lemma json_loads_encode v t :
  json_native v = true -> json_encode v = Some t -> json_loads t = Some v.
Proof.
  intros Hn Ht. unfold json_loads.
  pose proof (json_encode_starts_value v t "" Ht) as Hs.
  rewrite string_app_nil_r in Hs. rewrite (skip_ws_starts_value t Hs).
  pose proof (parse_value_json v Hn t Ht (S (String.length t)) "") as Hp.
  rewrite string_app_nil_r in Hp. rewrite Hp; [done| |done].
  pose proof (need_le_length v t Ht). lia.
Qed.

(** ** The writer *)

Lemma getattr_g_run name dflt w g :
  app_ctx w = Some g ->
  getattr_g name dflt w = (Returns (g_attr g name dflt), w).
Proof. intros H. unfold getattr_g. by rewrite H. Qed.

Lemma dump_if_truthy_run v w : dump_if_truthy v w = (dumped v, w).
Proof.
  unfold dump_if_truthy, dumped, json_dumps, bind, lift_result, ret.
  destruct (truthy v); [|done]. by destruct (json_encode v).
Qed.

Lemma dump_request_json_run w : dump_request_json w = (dumped_request w, w).
Proof.
  unfold dump_request_json, dumped_request, get_json, dumped, json_dumps,
    bind, lift_result, ret, raise.
  destruct (request w) as [r|]; [|done].
  destruct (request_get_json r) as [v|d]; [|done].
  destruct (truthy v); [|done]. by destruct (json_encode v).
Qed.

Lemma dumped_cases v :
  (dumped v = Returns (stored v) /\ dumpable v = true) \/
  (exists e, dumped v = Raises e /\ is_Exception e = true /\
             dumpable v = false).
Proof.
  unfold dumped, stored, dumpable. destruct (truthy v); [|by left].
  destruct (json_encode v); [by left|right]. by eexists.
Qed.

Lemma dumped_request_cases w :
  (exists p, dumped_request w = Returns p /\
     match request w with
     | None => true
     | Some rq =>
         match request_get_json rq with
         | Body body => dumpable body
         | BadRequest _ => false
         end
     end = true) \/
  (exists e, dumped_request w = Raises e /\ is_Exception e = true /\
     match request w with
     | None => true
     | Some rq =>
         match request_get_json rq with
         | Body body => dumpable body
         | BadRequest _ => false
         end
     end = false).
Proof.
  unfold dumped_request. destruct (request w) as [r|]; [|left; by eexists].
  destruct (request_get_json r) as [v|d]; [|right; by eexists].
  destruct (dumped_cases v) as [[-> ->]|(e & -> & ? & ->)];
    [left|right]; by eexists.
Qed.

(** A branch of [log_action] that ends in the handler: [tac] shows that
    a condition of the write does not hold. *)
Ltac writer_fails_by tac :=
  unfold print, ret; cbv beta iota;
  eexists None, _; (split; [reflexivity|]);
  cbn [app_ctx request rows fault utcnow];
  (split; [first [reflexivity | assumption | by symmetry]|]);
  do 2 (split; [reflexivity|]);
  (split; [reflexivity|]);
  tac.

Ltac writer_fails :=
  writer_fails_by
    ltac:(unfold audit_ready, storable;
          repeat match goal with
                 | H : _ = _ |- _ => rewrite H; cbv beta iota
                 end;
          rewrite ?andb_false_r; reflexivity).

Lemma log_action_spec act rtype rid old new context risk flags w :
  exists out w',
    log_action act rtype rid old new context risk flags w = (Returns out, w')
    /\ app_ctx w' = app_ctx w /\ request w' = request w
    /\ utcnow w' = utcnow w
    /\ match out with
       | Some i =>
           exists r, i = id r /\ rows w' = rows w ++ [r]
                     /\ fault w' = fault w
                     /\ row_of_call act rtype rid old new context risk w r
                     /\ audit_ready w = true
                     /\ storable act rtype rid risk = true
                     /\ dumpable old = true /\ dumpable new = true
                     /\ dumpable flags = true
       | None =>
           rows w' = rows w
           /\ (audit_ready w && storable act rtype rid risk
               && dumpable old && dumpable new && dumpable flags = false)
       end.
Proof.
  unfold log_action, try_except, bind.
  destruct (app_ctx w) as [g|] eqn:Hctx.
  2:{ unfold getattr_g. rewrite Hctx. cbn [is_Exception RuntimeError].
      cbv beta iota. writer_fails. }
  rewrite !(getattr_g_run _ _ w g Hctx). cbv beta iota.
  unfold request_attr. cbv beta iota.
  rewrite dump_request_json_run.
  destruct (dumped_request_cases w) as [(p & -> & Hrq)|(e & -> & -> & Hrq)];
    cbv beta iota; [|writer_fails].
  rewrite dump_if_truthy_run.
  destruct (dumped_cases old) as [[-> Hold]|(e & -> & -> & Hold)];
    cbv beta iota; [|writer_fails].
  rewrite dump_if_truthy_run.
  destruct (dumped_cases new) as [[-> Hnew]|(e & -> & -> & Hnew)];
    cbv beta iota; [|writer_fails].
  rewrite dump_if_truthy_run.
  destruct (dumped_cases flags) as [[-> Hflags]|(e & -> & -> & Hflags)];
    cbv beta iota; [|writer_fails].
  unfold db_session_add_commit.
  destruct (fault w) as [msg|] eqn:Hfault.
  { cbn [is_Exception OperationalError]. cbv beta iota. writer_fails. }
  cbn [new_user_id new_action new_resource_type].
  destruct (g_attr g "user_id" (Some "system")) as [u|] eqn:Hu;
    destruct act as [a|]; destruct rtype as [t|];
    cbn [is_Exception IntegrityError]; cbv beta iota; try writer_fails.
  unfold within_widths.
  cbn [new_user_id new_user_email new_session_id new_ip_address
       new_http_method new_endpoint new_action new_resource_type
       new_resource_id new_risk_level new_service_name new_status].
  change (fits 50 (Some "financial-advanced") && fits 20 (Some "SUCCESS"))
    with true.
  rewrite andb_true_r.
  destruct (fits 50 (Some u) && fits 100 (g_attr g "user_email" None)
            && fits 100 (g_attr g "session_id" None)
            && fits 45 (match request w with
                        | Some r => request_remote_addr r
                        | None => None
                        end)
            && fits 10 (match request w with
                        | Some r => Some (request_method r)
                        | None => None
                        end)
            && fits 200 (match request w with
                         | Some r => request_endpoint r
                         | None => None
                         end)) eqn:Hambient.
  2:{ cbn [andb is_Exception DataError]. cbv beta iota.
      writer_fails_by
        ltac:(unfold audit_ready; rewrite Hctx; cbv beta iota;
              rewrite Hu, Hambient; reflexivity). }
  destruct (fits 100 (Some a) && fits 50 (Some t) && fits 50 rid
            && fits 20 (Some risk)) eqn:Hcall.
  2:{ cbn [andb is_Exception DataError]. cbv beta iota.
      writer_fails_by
        ltac:(unfold storable; rewrite Hcall; cbn [andb];
              by rewrite ?andb_false_r). }
  cbn [andb]. unfold ret; cbv beta iota. eexists (Some _), _.
  split; [reflexivity|].
  cbn [app_ctx request rows fault utcnow].
  split; [first [reflexivity | assumption | by symmetry]|].
  do 2 (split; [reflexivity|]).
  eexists. split; [reflexivity|]. split; [reflexivity|].
  split; [first [reflexivity | assumption | by symmetry]|].
  split.
  - unfold row_of_call.
    cbn [id timestamp user_id action resource_type resource_id service_name
         old_values new_values business_context risk_level status
         error_message processing_time_ms new_old_values new_new_values
         new_business_context new_risk_level new_status new_resource_id
         new_service_name].
    repeat split; try reflexivity.
    eexists. split; [exact Hctx|]. exact Hu.
  - split.
    + unfold audit_ready. rewrite Hctx. cbv beta iota.
      by rewrite Hu, Hambient, Hfault, Hrq.
    + split; [|done]. unfold storable. by rewrite Hcall.
Qed.

(** ** The wrapper *)

Lemma audit_required_spec {A} act rtype risk name (f : M A) w res w1 :
  f w = (res, w1) ->
  exists w2,
    audit_required act rtype risk name f w = (res, w2)
    /\ if wrapper_writes act rtype risk name res w1
       then exists r,
              rows w2 = rows w1 ++ [r]
              /\ row_of_call (Some (py_or act (upper name)))
                   (Some (py_or rtype "unknown")) None PyNone PyNone
                   (Some (wrapper_context name res)) (wrapper_risk risk res)
                   w1 r
       else rows w2 = rows w1.
Proof.
  intros Hf. unfold wrapper_writes, audit_required, try_except, bind.
  rewrite Hf.
  destruct res as [a|e]; cbn [audited wrapper_context wrapper_risk].
  - destruct (log_action_spec (Some (py_or act (upper name)))
                (Some (py_or rtype "unknown")) None PyNone PyNone
                (Some ("Function " +:+ name +:+ " executed successfully"))
                risk PyNone w1) as (out & w2 & -> & _ & _ & _ & Hout).
    unfold ret. eexists; split; [reflexivity|].
    destruct out as [i|].
    + destruct Hout as (r & _ & Hrows & _ & Hrow & -> & -> & _).
      cbn [andb]. by exists r.
    + destruct Hout as [Hrows Hno].
      change (dumpable PyNone) with true in Hno.
      rewrite !andb_true_r in Hno. cbn [andb]. by rewrite Hno.
  - destruct (is_Exception e) eqn:He; [|by eexists].
    unfold log_error.
    destruct (log_action_spec (Some (py_or act (upper name)))
                (Some (py_or rtype "unknown")) None PyNone PyNone
                (Some ("Error occurred: " +:+ exn_str e))
                "HIGH" PyNone w1) as (out & w2 & -> & _ & _ & _ & Hout).
    unfold raise. eexists; split; [reflexivity|].
    destruct out as [i|].
    + destruct Hout as (r & _ & Hrows & _ & Hrow & -> & -> & _).
      cbn [andb]. by exists r.
    + destruct Hout as [Hrows Hno].
      change (dumpable PyNone) with true in Hno.
      rewrite !andb_true_r in Hno. cbn [andb]. by rewrite Hno.
Qed.

(** ** Claims about the wrapper and the writer *)

(** C1, as the code has it.  When the wrapped operation raises, the
    error propagates; if the wrapper's audit write succeeds (the error
    derives from [Exception], the process is ready for the write and the
    values fit their columns), exactly one record is persisted, and its
    [business_context] is ["Error occurred: "] followed by the message of
    the error; otherwise no record is persisted. *)
Theorem failure_record_when_write_succeeds {A} act rtype risk name
    (f : M A) w e w1 :
  f w = (Raises e, w1) ->
  exists w2,
    audit_required act rtype risk name f w = (Raises e, w2)
    /\ if wrapper_writes act rtype risk name (Raises e : result A) w1
       then exists r,
              rows w2 = rows w1 ++ [r]
              /\ business_context r = Some ("Error occurred: " +:+ exn_str e)
       else rows w2 = rows w1.
Proof.
  intros Hf.
  destruct (audit_required_spec act rtype risk name f w _ w1 Hf)
    as (w2 & Hrun & Hrows).
  exists w2. split; [done|].
  destruct (wrapper_writes act rtype risk name (Raises e) w1); [|done].
  destruct Hrows as (r & Hr & Hrow). exists r. split; [done|].
  apply Hrow.
Qed.

Lemma failure_record_when_write_succeeds_witness :
  create_payment background_job = (Raises insufficient_funds, background_job)
  /\ wrapper_writes (Some "CREATE") (Some "payment") "MEDIUM"
       "create_payment" (Raises insufficient_funds : result pyval)
       background_job = true
  /\ exists w2,
       audit_required (Some "CREATE") (Some "payment") "MEDIUM"
         "create_payment" create_payment background_job
       = (Raises insufficient_funds, w2)
       /\ if wrapper_writes (Some "CREATE") (Some "payment") "MEDIUM"
               "create_payment" (Raises insufficient_funds : result pyval)
               background_job
          then exists r,
                 rows w2 = rows background_job ++ [r]
                 /\ business_context r
                    = Some ("Error occurred: " +:+ exn_str insufficient_funds)
          else rows w2 = rows background_job.
Proof.
  split; [reflexivity|]. split; [reflexivity|].
  apply (failure_record_when_write_succeeds (Some "CREATE") (Some "payment")
           "MEDIUM" "create_payment" create_payment background_job
           insufficient_funds background_job).
  reflexivity.
Defined.

(** C1 as stated fails: with the database down, the wrapped operation
    raises, the error propagates, and no record at all is persisted. *)
Lemma failure_not_recorded_when_store_down :
  fst (audit_required (Some "CREATE") (Some "payment") "MEDIUM"
         "create_payment" create_payment store_down)
  = Raises insufficient_funds
  /\ ~ exists r,
        rows (snd (audit_required (Some "CREATE") (Some "payment") "MEDIUM"
                     "create_payment" create_payment store_down))
        = rows store_down ++ [r].
Proof.
  split; [reflexivity|]. intros [r Hr]. vm_compute in Hr. discriminate Hr.
Qed.

(** What the record written after an error holds in the two columns C1
    names: the writer sets [status] to ['SUCCESS'] on every path and never
    sets [error_message]. *)
Lemma failure_record_status {A} act rtype risk name (f : M A) w e w1 :
  f w = (Raises e, w1) ->
  wrapper_writes act rtype risk name (Raises e : result A) w1 = true ->
  exists w2 r,
    audit_required act rtype risk name f w = (Raises e, w2)
    /\ rows w2 = rows w1 ++ [r]
    /\ status r = Some "SUCCESS" /\ error_message r = None.
Proof.
  intros Hf Hwrites.
  destruct (audit_required_spec act rtype risk name f w _ w1 Hf)
    as (w2 & Hrun & Hrows).
  rewrite Hwrites in Hrows.
  destruct Hrows as (r & Hr & Hrow). exists w2, r.
  repeat split; try done; apply Hrow.
Qed.

(** C2.  The writer never raises: every call of [log_action] returns,
    and it returns [None] without touching the table when the database
    is unreachable or a payload cannot be serialized.  A wrapped
    operation that returns normally therefore returns the same result
    through the wrapper, also when the database is unreachable. *)
Theorem audit_failure_is_swallowed :
  (forall act rtype rid old new context risk flags w,
     exists out w',
       log_action act rtype rid old new context risk flags w
       = (Returns out, w')
       /\ (is_Some (fault w) \/ dumpable old = false
           \/ dumpable new = false \/ dumpable flags = false ->
           out = None /\ rows w' = rows w))
  /\ (forall A act rtype risk name (f : M A) w a w1,
        f w = (Returns a, w1) ->
        exists w2,
          audit_required act rtype risk name f w = (Returns a, w2)
          /\ (is_Some (fault w1) -> rows w2 = rows w1)).
Proof.
  split.
  - intros act rtype rid old new context risk flags w.
    destruct (log_action_spec act rtype rid old new context risk flags w)
      as (out & w' & Hrun & _ & _ & _ & Hout).
    exists out, w'. split; [done|]. intros Hfail.
    destruct out as [i|]; [|by destruct Hout].
    destruct Hout as (r & _ & _ & _ & _ & Hready & _ & Hold & Hnew & Hflags).
    exfalso. destruct Hfail as [[msg Hmsg]|[H|[H|H]]]; try congruence.
    unfold audit_ready in Hready. rewrite Hmsg in Hready.
    by rewrite andb_false_r in Hready.
  - intros A act rtype risk name f w a w1 Hf.
    destruct (audit_required_spec act rtype risk name f w _ w1 Hf)
      as (w2 & Hrun & Hrows).
    exists w2. split; [done|]. intros [msg Hmsg].
    assert (audit_ready w1 = false) as Hno.
    { unfold audit_ready. rewrite Hmsg. by rewrite andb_false_r. }
    unfold wrapper_writes in Hrows.
    by rewrite Hno, andb_false_r in Hrows.
Qed.

Lemma audit_failure_is_swallowed_witness :
  health_check store_down = (Returns healthy, store_down)
  /\ is_Some (fault store_down)
  /\ exists w2,
       audit_required (Some "HEALTH_CHECK") (Some "system") "LOW"
         "health_check" health_check store_down = (Returns healthy, w2)
       /\ (is_Some (fault store_down) -> rows w2 = rows store_down).
Proof.
  split; [reflexivity|]. split; [by eexists|].
  apply (proj2 audit_failure_is_swallowed pyval (Some "HEALTH_CHECK")
           (Some "system") "LOW" "health_check" health_check store_down
           healthy store_down).
  reflexivity.
Defined.

(** C3, as the code has it.  When the wrapped operation returns
    normally, the wrapper returns its result unchanged; if the wrapper's
    audit write succeeds, exactly one record is persisted, with [status]
    ['SUCCESS'] and the declared [risk_level]; otherwise no record is
    persisted. *)
Theorem success_record_when_write_succeeds {A} act rtype risk name
    (f : M A) w a w1 :
  f w = (Returns a, w1) ->
  exists w2,
    audit_required act rtype risk name f w = (Returns a, w2)
    /\ if wrapper_writes act rtype risk name (Returns a) w1
       then exists r,
              rows w2 = rows w1 ++ [r]
              /\ status r = Some "SUCCESS" /\ risk_level r = Some risk
       else rows w2 = rows w1.
Proof.
  intros Hf.
  destruct (audit_required_spec act rtype risk name f w _ w1 Hf)
    as (w2 & Hrun & Hrows).
  exists w2. split; [done|].
  destruct (wrapper_writes act rtype risk name (Returns a) w1); [|done].
  destruct Hrows as (r & Hr & Hrow). exists r.
  repeat split; try done; apply Hrow.
Qed.

Lemma success_record_when_write_succeeds_witness :
  health_check background_job = (Returns healthy, background_job)
  /\ wrapper_writes (Some "HEALTH_CHECK") (Some "system") "LOW"
       "health_check" (Returns healthy) background_job = true
  /\ exists w2,
       audit_required (Some "HEALTH_CHECK") (Some "system") "LOW"
         "health_check" health_check background_job = (Returns healthy, w2)
       /\ if wrapper_writes (Some "HEALTH_CHECK") (Some "system") "LOW"
               "health_check" (Returns healthy) background_job
          then exists r,
                 rows w2 = rows background_job ++ [r]
                 /\ status r = Some "SUCCESS" /\ risk_level r = Some "LOW"
          else rows w2 = rows background_job.
Proof.
  split; [reflexivity|]. split; [reflexivity|].
  apply (success_record_when_write_succeeds (Some "HEALTH_CHECK")
           (Some "system") "LOW" "health_check" health_check background_job
           healthy background_job).
  reflexivity.
Defined.

(** C3 as stated fails: with the database down, the wrapped operation
    returns normally, its result reaches the caller, and no record is
    persisted. *)
Lemma success_not_recorded_when_store_down :
  fst (audit_required (Some "HEALTH_CHECK") (Some "system") "LOW"
         "health_check" health_check store_down)
  = Returns healthy
  /\ ~ exists r,
        rows (snd (audit_required (Some "HEALTH_CHECK") (Some "system") "LOW"
                     "health_check" health_check store_down))
        = rows store_down ++ [r].
Proof.
  split; [reflexivity|]. intros [r Hr]. vm_compute in Hr. discriminate Hr.
Qed.

(** C4.  When the wrapped operation raises, the same error reaches the
    caller of the wrapper, and the record the wrapper persists has
    [risk_level] ['HIGH'] whatever level was declared.  The record is
    persisted when the wrapper's audit write succeeds; otherwise the
    table is left as the operation left it. *)
Theorem failure_record_is_high_risk {A} act rtype risk name
    (f : M A) w e w1 :
  f w = (Raises e, w1) ->
  exists w2,
    audit_required act rtype risk name f w = (Raises e, w2)
    /\ if wrapper_writes act rtype risk name (Raises e : result A) w1
       then exists r, rows w2 = rows w1 ++ [r] /\ risk_level r = Some "HIGH"
       else rows w2 = rows w1.
Proof.
  intros Hf.
  destruct (audit_required_spec act rtype risk name f w _ w1 Hf)
    as (w2 & Hrun & Hrows).
  exists w2. split; [done|].
  destruct (wrapper_writes act rtype risk name (Raises e) w1); [|done].
  destruct Hrows as (r & Hr & Hrow). exists r. split; [done|]. apply Hrow.
Qed.

Lemma failure_record_is_high_risk_witness :
  create_payment user_request = (Raises insufficient_funds, user_request)
  /\ wrapper_writes (Some "CREATE") (Some "payment") "LOW" "create_payment"
       (Raises insufficient_funds : result pyval) user_request = true
  /\ exists w2,
       audit_required (Some "CREATE") (Some "payment") "LOW"
         "create_payment" create_payment user_request
       = (Raises insufficient_funds, w2)
       /\ if wrapper_writes (Some "CREATE") (Some "payment") "LOW"
               "create_payment" (Raises insufficient_funds : result pyval)
               user_request
          then exists r,
                 rows w2 = rows user_request ++ [r]
                 /\ risk_level r = Some "HIGH"
          else rows w2 = rows user_request.
Proof.
  split; [reflexivity|]. split; [reflexivity|].
  apply (failure_record_is_high_risk (Some "CREATE") (Some "payment") "LOW"
           "create_payment" create_payment user_request insufficient_funds
           user_request).
  reflexivity.
Defined.

(** C8.  When neither [action] nor [resource_type] is declared, the
    record the wrapper persists has the upper-cased name of the wrapped
    function as [action] and ['unknown'] as [resource_type], after a
    normal return and after an error alike.  The name is one whose
    upper case is a string of this model. *)
Theorem undeclared_action_and_resource_type {A} risk name
    (f : M A) w res w1 :
  upper_in_model name = true ->
  f w = (res, w1) ->
  exists w2,
    audit_required None None risk name f w = (res, w2)
    /\ if wrapper_writes None None risk name res w1
       then exists r,
              rows w2 = rows w1 ++ [r]
              /\ action r = upper name /\ resource_type r = "unknown"
       else rows w2 = rows w1.
Proof.
  intros _ Hf.
  destruct (audit_required_spec None None risk name f w _ w1 Hf)
    as (w2 & Hrun & Hrows).
  exists w2. split; [done|].
  destruct (wrapper_writes None None risk name res w1); [|done].
  destruct Hrows as (r & Hr & Hrow). exists r. split; [done|].
  destruct Hrow as (_ & _ & _ & Hact & Htype & _).
  cbn [py_or] in Hact, Htype. split; congruence.
Qed.

Lemma undeclared_action_and_resource_type_witness :
  (upper_in_model "create_payment" = true
   /\ create_payment background_job
      = (Raises insufficient_funds, background_job)
   /\ wrapper_writes None None "LOW" "create_payment"
        (Raises insufficient_funds : result pyval) background_job = true
   /\ exists w2,
        audit_required None None "LOW" "create_payment" create_payment
          background_job = (Raises insufficient_funds, w2)
        /\ if wrapper_writes None None "LOW" "create_payment"
                (Raises insufficient_funds : result pyval) background_job
           then exists r,
                  rows w2 = rows background_job ++ [r]
                  /\ action r = upper "create_payment"
                  /\ resource_type r = "unknown"
           else rows w2 = rows background_job)
  /\ upper "create_payment" = "CREATE_PAYMENT".
Proof.
  split; [|reflexivity]. split; [reflexivity|]. split; [reflexivity|].
  split; [reflexivity|].
  apply (undeclared_action_and_resource_type "LOW" "create_payment"
           create_payment background_job (Raises insufficient_funds)
           background_job); reflexivity.
Defined.

(** C9.  When no [user_id] is bound and the audit write succeeds,
    [log_action] persists one record and its [user_id] is ['system'];
    when the write does not succeed it persists none.  A persisted
    record always has a [user_id]. *)
Theorem system_user_when_unbound act rtype rid old new context risk flags w :
  no_user_bound w = true ->
  exists w',
    if writer_writes act rtype rid old new risk flags w
    then exists r,
           log_action act rtype rid old new context risk flags w
           = (Returns (Some (id r)), w')
           /\ rows w' = rows w ++ [r]
           /\ user_id r = "system"
    else log_action act rtype rid old new context risk flags w
         = (Returns None, w')
         /\ rows w' = rows w.
Proof.
  intros Hno. unfold writer_writes.
  destruct (log_action_spec act rtype rid old new context risk flags w)
    as (out & w' & Hrun & _ & _ & _ & Hout).
  exists w'. destruct out as [i|].
  - destruct Hout as (r & -> & Hrows & _ & Hrow & -> & -> & -> & -> & ->).
    cbn [andb]. exists r. split; [done|]. split; [done|].
    destruct Hrow as (_ & _ & (g & Hg & Huser) & _).
    unfold no_user_bound in Hno. rewrite Hg in Hno.
    unfold g_attr in Huser. destruct (g !! "user_id"); [done|].
    by injection Huser as <-.
  - destruct Hout as [Hrows ->]. done.
Qed.

Lemma system_user_when_unbound_witness :
  no_user_bound background_job = true
  /\ writer_writes (Some "EXPORT") (Some "report") None PyNone PyNone "LOW"
       PyNone background_job = true
  /\ exists w',
       if writer_writes (Some "EXPORT") (Some "report") None PyNone PyNone
            "LOW" PyNone background_job
       then exists r,
              log_action (Some "EXPORT") (Some "report") None PyNone PyNone
                None "LOW" PyNone background_job
              = (Returns (Some (id r)), w')
              /\ rows w' = rows background_job ++ [r]
              /\ user_id r = "system"
       else log_action (Some "EXPORT") (Some "report") None PyNone PyNone
              None "LOW" PyNone background_job = (Returns None, w')
            /\ rows w' = rows background_job.
Proof.
  split; [reflexivity|]. split; [reflexivity|].
  apply (system_user_when_unbound (Some "EXPORT") (Some "report") None
           PyNone PyNone None "LOW" PyNone background_job).
  reflexivity.
Defined.

(** C10.  The wrapper computes the elapsed time and does not pass it
    on: the record it persists, after a normal return or after an
    error, has no [processing_time_ms]. *)
Theorem wrapper_drops_processing_time {A} act rtype risk name
    (f : M A) w res w1 :
  f w = (res, w1) ->
  exists w2,
    audit_required act rtype risk name f w = (res, w2)
    /\ if wrapper_writes act rtype risk name res w1
       then exists r,
              rows w2 = rows w1 ++ [r] /\ processing_time_ms r = None
       else rows w2 = rows w1.
Proof.
  intros Hf.
  destruct (audit_required_spec act rtype risk name f w _ w1 Hf)
    as (w2 & Hrun & Hrows).
  exists w2. split; [done|].
  destruct (wrapper_writes act rtype risk name res w1); [|done].
  destruct Hrows as (r & Hr & Hrow). exists r. split; [done|]. apply Hrow.
Qed.

Lemma wrapper_drops_processing_time_witness :
  health_check user_request = (Returns healthy, user_request)
  /\ wrapper_writes (Some "HEALTH_CHECK") (Some "system") "LOW"
       "health_check" (Returns healthy) user_request = true
  /\ exists w2,
       audit_required (Some "HEALTH_CHECK") (Some "system") "LOW"
         "health_check" health_check user_request = (Returns healthy, w2)
       /\ if wrapper_writes (Some "HEALTH_CHECK") (Some "system") "LOW"
               "health_check" (Returns healthy) user_request
          then exists r,
                 rows w2 = rows user_request ++ [r]
                 /\ processing_time_ms r = None
          else rows w2 = rows user_request.
Proof.
  split; [reflexivity|]. split; [reflexivity|].
  apply (wrapper_drops_processing_time (Some "HEALTH_CHECK") (Some "system")
           "LOW" "health_check" health_check user_request (Returns healthy)
           user_request).
  reflexivity.
Defined.

(** ** Claims about the trail query *)

Lemma In_take {A} (x : A) n l : In x (take n l) -> In x l.
Proof.
  revert n. induction l as [|y l IH]; intros [|n]; cbn; try done.
  intros [->|H]; [by left|right; by apply (IH n)].
Qed.

Lemma StronglySorted_take {A} (R : A -> A -> Prop) n l :
  StronglySorted R l -> StronglySorted R (take n l).
Proof.
  revert n. induction l as [|y l IH]; intros [|n] Hs; cbn; try constructor.
  - apply IH. by inversion Hs.
  - apply StronglySorted_inv in Hs as [_ Hy].
    rewrite List.Forall_forall in *. intros x Hx. apply Hy.
    by apply (In_take x n).
Qed.

Lemma In_insert_desc x r l : In x (insert_desc r l) <-> x = r \/ In x l.
Proof.
  induction l as [|y l IH]; cbn; [naive_solver|].
  destruct (timestamp y <=? timestamp r); cbn; [naive_solver|].
  rewrite IH. naive_solver.
Qed.

Lemma In_order_by_timestamp_desc x l :
  In x (order_by_timestamp_desc l) <-> In x l.
Proof.
  induction l as [|y l IH]; cbn; [done|].
  rewrite In_insert_desc, IH. naive_solver.
Qed.

Lemma length_insert_desc r l : length (insert_desc r l) = S (length l).
Proof.
  induction l as [|y l IH]; cbn; [done|].
  destruct (timestamp y <=? timestamp r); cbn; [done|]. by rewrite IH.
Qed.

Lemma length_order_by_timestamp_desc l :
  length (order_by_timestamp_desc l) = length l.
Proof.
  induction l as [|y l IH]; cbn; [done|].
  by rewrite length_insert_desc, IH.
Qed.

Lemma insert_desc_sorted r l :
  StronglySorted not_before l -> StronglySorted not_before (insert_desc r l).
Proof.
  induction 1 as [|y l Hl IH Hy]; cbn; [repeat constructor|].
  destruct (Z.leb_spec (timestamp y) (timestamp r)) as [Hle|Hlt].
  - constructor; [by constructor|]. constructor; [done|].
    rewrite List.Forall_forall in *. intros x Hx. specialize (Hy x Hx).
    unfold not_before in *. lia.
  - constructor; [done|]. rewrite List.Forall_forall in *.
    intros x [->|Hx]%In_insert_desc; [unfold not_before; lia|by apply Hy].
Qed.

Lemma order_by_timestamp_desc_sorted l :
  StronglySorted not_before (order_by_timestamp_desc l).
Proof.
  induction l as [|y l IH]; cbn; [constructor|by apply insert_desc_sorted].
Qed.

Lemma matches_spec a column :
  matches a column = true <->
  (forall s, a = Some s -> s <> "" -> column = Some s).
Proof.
  unfold matches, given. destruct a as [s|]; [|naive_solver].
  destruct (String.eqb_spec s "") as [->|Hne]; [naive_solver|].
  destruct column as [c|].
  - destruct (String.eqb_spec c s) as [->|Hcs]; naive_solver.
  - split; [done|]. intros H. by specialize (H s eq_refl Hne).
Qed.

Lemma in_trail_selected by_type by_resource by_user start_date end_date r :
  in_trail by_type by_resource by_user start_date end_date r = true <->
  selected by_type by_resource by_user start_date end_date r.
Proof.
  unfold in_trail, selected. rewrite !andb_true_iff, !matches_spec.
  assert (match start_date with Some d => d <=? timestamp r | None => true end
          = true <-> (forall d, start_date = Some d -> d <= timestamp r)) as ->.
  { destruct start_date as [d|]; [|naive_solver].
    rewrite Z.leb_le. naive_solver. }
  assert (match end_date with Some d => timestamp r <=? d | None => true end
          = true <-> (forall d, end_date = Some d -> timestamp r <= d)) as ->.
  { destruct end_date as [d|]; [|naive_solver].
    rewrite Z.leb_le. naive_solver. }
  naive_solver.
Qed.

Lemma get_audit_trail_returns by_type by_resource by_user start_date
    end_date limit w l w' :
  get_audit_trail by_type by_resource by_user start_date end_date limit w
  = (Returns l, w') ->
  l = take (match limit with Some n => n | None => default_limit end)
        (order_by_timestamp_desc
           (List.filter
              (in_trail by_type by_resource by_user start_date end_date)
              (rows w))).
Proof.
  unfold get_audit_trail. destruct (fault w); [done|]. by intros [= <- _].
Qed.

(** C5, as the code has it.  Every row the trail query returns is a row
    of the table that satisfies all the filters that were supplied and
    are not the empty string, with the time range inclusive on both
    ends; a filter that is omitted or empty excludes no row: when the
    table holds no more rows than the limit, every row that satisfies
    those filters is returned. *)
Theorem trail_applies_given_filters by_type by_resource by_user start_date
    end_date limit w l w' :
  get_audit_trail by_type by_resource by_user start_date end_date limit w
  = (Returns l, w') ->
  (forall r, In r l ->
     In r (rows w)
     /\ selected by_type by_resource by_user start_date end_date r)
  /\ ((length (rows w)
        <= match limit with Some n => n | None => 100 end)%nat ->
      forall r, In r (rows w) ->
        selected by_type by_resource by_user start_date end_date r ->
        In r l).
Proof.
  intros ->%get_audit_trail_returns. split.
  - intros r Hr%In_take%In_order_by_timestamp_desc%filter_In.
    by rewrite <- in_trail_selected.
  - intros Hlen r Hr Hsel. rewrite take_ge.
    + apply In_order_by_timestamp_desc, filter_In.
      by rewrite in_trail_selected.
    + rewrite length_order_by_timestamp_desc.
      pose proof (List.filter_length_le
                    (in_trail by_type by_resource by_user start_date end_date)
                    (rows w)).
      unfold default_limit. destruct limit; lia.
Qed.

Lemma trail_applies_given_filters_witness :
  exists l,
    get_audit_trail (Some "project") (Some "P1") None
      (Some 1700000000000500) (Some 1700000000000500) None two_records
    = (Returns l, two_records)
    /\ length l = 1%nat
    /\ (forall r, In r l ->
          In r (rows two_records)
          /\ selected (Some "project") (Some "P1") None
               (Some 1700000000000500) (Some 1700000000000500) r).
Proof.
  eexists. split; [reflexivity|]. split; [reflexivity|].
  apply (trail_applies_given_filters (Some "project") (Some "P1") None
           (Some 1700000000000500) (Some 1700000000000500) None
           two_records _ two_records).
  reflexivity.
Defined.

(** C5 as stated fails: [resource_type=''] is supplied and no row has an
    empty [resource_type], yet the query returns both rows of the
    table. *)
Lemma empty_filter_is_not_applied :
  match fst (get_audit_trail (Some "") None None None None None two_records)
  with
  | Returns l => map resource_type l
  | Raises _ => []
  end = ["project"; "payment"].
Proof. reflexivity. Qed.

(** C6.  The rows the trail query returns are in descending order of
    [timestamp], and there are at most [limit] of them, at most 100 when
    no limit is given. *)
Theorem trail_is_ordered_and_limited by_type by_resource by_user start_date
    end_date limit w l w' :
  get_audit_trail by_type by_resource by_user start_date end_date limit w
  = (Returns l, w') ->
  StronglySorted not_before l
  /\ (length l <= match limit with Some n => n | None => 100 end)%nat.
Proof.
  intros ->%get_audit_trail_returns. split.
  - apply StronglySorted_take, order_by_timestamp_desc_sorted.
  - rewrite length_take. unfold default_limit. destruct limit; lia.
Qed.

Lemma trail_is_ordered_and_limited_witness :
  exists l,
    get_audit_trail None None None None None None two_records
    = (Returns l, two_records)
    /\ map timestamp l = [1700000000000500; 1700000000000000]
    /\ StronglySorted not_before l
    /\ (length l <= 100)%nat.
Proof.
  eexists. split; [reflexivity|]. split; [reflexivity|].
  apply (trail_is_ordered_and_limited None None None None None None
           two_records _ two_records).
  reflexivity.
Defined.

(** ** The payload columns *)

Lemma json_native_dumpable v : json_native v = true -> dumpable v = true.
Proof.
  intros [t Ht]%json_encode_native. unfold dumpable. rewrite Ht.
  by destruct (truthy v).
Qed.

Lemma stored_round_trips v :
  json_native v = true -> column_round_trips v (stored v).
Proof.
  intros Hn. unfold column_round_trips, stored.
  destruct (truthy v); [|done].
  destruct (json_encode_native v Hn) as [t Ht]. rewrite Ht.
  exists t. split; [done|]. by apply json_loads_encode.
Qed.




(** ** The model on concrete inputs *)

Example json_encode_scalars :
  json_encode (PyList [PyInt 1; PyNone; PyBool true; PyInt (-12)])
  = Some "[1, null, true, -12]".
Proof. reflexivity. Qed.

Example json_encode_tuple_as_list :
  json_encode (PyTuple [PyInt 1; PyInt 2]) = Some "[1, 2]".
Proof. reflexivity. Qed.

Example json_encode_object_fails :
  json_encode (PyList [PyObject "Decimal('10.50')" true]) = None.
Proof. reflexivity. Qed.

Example escape_control_characters :
  escape_string (String "010" (String "127" (String "001" "")))
  = "\n\u007f\u0001".
Proof. reflexivity. Qed.

Example json_loads_skips_white_space :
  json_loads " [1 ,2 , [ ] , { } ] "
  = Some (PyList [PyInt 1; PyInt 2; PyList []; PyDict []]).
Proof. reflexivity. Qed.

Example json_loads_rejects :
  json_loads "[01]" = None /\ json_loads "[1,]" = None
  /\ json_loads "nul" = None /\ json_loads "1 2" = None.
Proof. repeat split; reflexivity. Qed.

Example int_key_comes_back_as_str :
  (t ← json_encode (PyDict [(PyInt 1, PyStr "a")]); json_loads t)
  = Some (PyDict [(PyStr "1", PyStr "a")]).
Proof. reflexivity. Qed.

Example upper_health_check : upper "health_check" = "HEALTH_CHECK".
Proof. reflexivity. Qed.

(** The letters above U+007F: [e] with an acute accent is U+00E9, its
    capital U+00C9; the sharp s is U+00DF. *)
Example upper_of_accented_letters :
  upper ("caf" +:+ String "233" "") = "CAF" +:+ String "201" ""
  /\ upper ("stra" +:+ String "223" "e") = "STRASSE"
  /\ upper (String "247" "") = String "247" "".
Proof. repeat split; reflexivity. Qed.

(** The health check of [main.py], in a background job. *)
Example health_check_row :
  map (fun r => (action r, resource_type r, user_id r, status r,
                 risk_level r, business_context r))
    (rows (snd (audit_required (Some "HEALTH_CHECK") (Some "system") "LOW"
                  "health_check" health_check background_job)))
  = [("HEALTH_CHECK", "system", "system", Some "SUCCESS", Some "LOW",
      Some "Function health_check executed successfully")].
Proof. reflexivity. Qed.

(** A payment that fails during a request: the row of the failure. *)
Example create_payment_row :
  map (fun r => (action r, user_id r, status r, error_message r,
                 risk_level r, business_context r))
    (rows (snd (audit_required (Some "CREATE") (Some "payment") "MEDIUM"
                  "create_payment" create_payment user_request)))
  = [("CREATE", "u-17", Some "SUCCESS", None, Some "HIGH",
      Some "Error occurred: insufficient funds")].
Proof. reflexivity. Qed.

(** A declared risk level of more than 20 characters does not fit its
    column: the write fails, the failure is printed, the result of the
    operation is returned. *)
Example long_risk_level_is_not_stored :
  let run := audit_required (Some "EXPORT") (Some "report")
               "HIGH_AND_TIME_CRITICAL" "export_report" health_check
               background_job in
  fst run = Returns healthy
  /\ rows (snd run) = []
  /\ stdout (snd run) = ["Audit logging failed: Data too long for column"].
Proof. repeat split; reflexivity. Qed.

(** * More about the audit code *)

(** ** Everything the writer does *)

Lemma dumped_request_returns w p :
  dumped_request w = Returns p ->
  match request w with
  | Some rq =>
      exists body, request_get_json rq = Body body /\ p = stored body
  | None => p = None
  end.
Proof.
  unfold dumped_request. destruct (request w) as [rq|]; [|by intros [= <-]].
  destruct (request_get_json rq) as [v|d]; [|done].
  intros Hv. exists v. split; [done|].
  destruct (dumped_cases v) as [[Hd _]|(e & Hd & _)]; rewrite Hd in Hv;
    [by injection Hv|done].
Qed.

(** A branch of [log_action] that ends in the handler, for
    [log_action_effects]. *)
Ltac writer_prints :=
  unfold print, ret; cbv beta iota;
  eexists None, _; (split; [reflexivity|]);
  cbn [uuid4 stdout fault rows];
  do 2 (split; [reflexivity|]);
  eexists; (split; [|split; [reflexivity|]]);
  [ first [assumption | reflexivity]
  | unfold reaches_insert;
    repeat match goal with
           | H : _ = _ |- _ => rewrite H; cbv beta iota
           end;
    rewrite ?andb_false_r; cbn [andb]; reflexivity ].

Lemma log_action_effects act rtype rid old new context risk flags w :
  exists out w',
    log_action act rtype rid old new context risk flags w = (Returns out, w')
    /\ uuid4 w' = uuid4 w
    /\ match out with
       | Some i =>
           stdout w' = stdout w /\ uuid_drawn w' = S (uuid_drawn w)
           /\ exists r, i = id r /\ rows w' = rows w ++ [r]
                        /\ identity_columns w r /\ request_columns w r
                        /\ literal_columns r
                        /\ compliance_flags r = stored flags
       | None =>
           rows w' = rows w
           /\ exists e,
                is_Exception e = true
                /\ stdout w'
                   = stdout w ++ ["Audit logging failed: " +:+ exn_str e]
                /\ fault w' = (if reaches_insert w old new flags
                               then Some needs_rollback else fault w)
       end.
Proof.
  unfold log_action, try_except, bind.
  destruct (app_ctx w) as [g|] eqn:Hctx.
  2:{ unfold getattr_g. rewrite Hctx. cbn [is_Exception RuntimeError].
      cbv beta iota. writer_prints. }
  rewrite !(getattr_g_run _ _ w g Hctx). cbv beta iota.
  unfold request_attr. cbv beta iota.
  rewrite dump_request_json_run.
  destruct (dumped_request_cases w) as [(p & Hp & Hrq)|(e & -> & He & Hrq)];
    cbv beta iota; [|rewrite He; writer_prints].
  rewrite Hp. cbv beta iota. apply dumped_request_returns in Hp.
  rewrite dump_if_truthy_run.
  destruct (dumped_cases old) as [[-> Hold]|(e & -> & He & Hold)];
    cbv beta iota; [|rewrite He; writer_prints].
  rewrite dump_if_truthy_run.
  destruct (dumped_cases new) as [[-> Hnew]|(e & -> & He & Hnew)];
    cbv beta iota; [|rewrite He; writer_prints].
  rewrite dump_if_truthy_run.
  destruct (dumped_cases flags) as [[-> Hflags]|(e & -> & He & Hflags)];
    cbv beta iota; [|rewrite He; writer_prints].
  unfold db_session_add_commit.
  destruct (fault w) as [msg|] eqn:Hfault.
  { cbn [is_Exception OperationalError]. cbv beta iota. writer_prints. }
  cbn [new_user_id new_action new_resource_type].
  destruct (g_attr g "user_id" (Some "system")) as [u|] eqn:Hu;
    destruct act as [a|]; destruct rtype as [t|];
    cbn [is_Exception IntegrityError]; cbv beta iota; try writer_prints.
  destruct (within_widths _);
    cbn [is_Exception DataError]; cbv beta iota; [|writer_prints].
  unfold ret; cbv beta iota. eexists (Some _), _.
  split; [reflexivity|]. cbn [uuid4 stdout uuid_drawn rows].
  do 3 (split; [reflexivity|]).
  eexists. split; [reflexivity|]. split; [reflexivity|].
  split; [|split; [|split]].
  - exists g. cbn [user_id user_email session_id new_user_email new_session_id].
    by rewrite Hctx.
  - unfold request_columns.
    cbn [ip_address user_agent http_method endpoint request_payload
         new_ip_address new_user_agent new_http_method new_endpoint
         new_request_payload].
    destruct (request w) as [rq|]; [|by subst p].
    destruct Hp as (body & Hbody & ->). repeat split; try reflexivity.
    by exists body.
  - unfold literal_columns.
    cbn [service_name status error_message response_status response_payload
         processing_time_ms metadata retention_period_days archived
         archived_at new_service_name new_status].
    repeat split; reflexivity.
  - reflexivity.
Qed.

Lemma audit_ready_reaches_insert w old new flags :
  audit_ready w = true -> dumpable old = true -> dumpable new = true ->
  dumpable flags = true -> reaches_insert w old new flags = true.
Proof.
  unfold audit_ready, reaches_insert. intros H -> -> ->.
  destruct (app_ctx w); [|done]. rewrite !andb_true_r.
  apply andb_prop in H as [H ->]. apply andb_prop in H as [_ ->]. done.
Qed.

Lemma audit_ready_fault w : audit_ready w = true -> fault w = None.
Proof.
  unfold audit_ready. intros H. apply andb_prop in H as [H _].
  apply andb_prop in H as [_ H]. by destruct (fault w).
Qed.

Lemma fault_not_ready w msg : fault w = Some msg -> audit_ready w = false.
Proof.
  intros H. destruct (audit_ready w) eqn:Hr; [|done].
  apply audit_ready_fault in Hr. congruence.
Qed.

(** X1.  [log_action] only appends to the table: the rows that were
    there stay as they were and in their order, and the call returns an
    id exactly when it added one row at the end, whose id it returns.
    It leaves [g], the request and the clock alone. *)
Theorem writer_only_appends act rtype rid old new context risk flags w :
  exists out w',
    log_action act rtype rid old new context risk flags w = (Returns out, w')
    /\ app_ctx w' = app_ctx w /\ request w' = request w
    /\ utcnow w' = utcnow w /\ uuid4 w' = uuid4 w
    /\ match out with
       | Some i =>
           exists r, rows w' = rows w ++ [r] /\ id r = i
                     /\ timestamp r = utcnow w
       | None => rows w' = rows w
       end.
Proof.
  destruct (log_action_spec act rtype rid old new context risk flags w)
    as (out & w' & Hrun & Hctx & Hrq & Hnow & Hout).
  destruct (log_action_effects act rtype rid old new context risk flags w)
    as (out' & w'' & Hrun' & Hid & _).
  rewrite Hrun in Hrun'. injection Hrun' as <- <-.
  exists out, w'. do 5 (split; [done|]).
  destruct out as [i|]; [|by destruct Hout].
  destruct Hout as (r & -> & Hrows & _ & Hrow & _).
  exists r. split; [done|]. split; [done|]. by destruct Hrow as (_ & ? & _).
Qed.

Lemma log_action_try_stdout act rtype rid old new context risk flags w :
  stdout (snd (log_action_try act rtype rid old new context risk flags w))
  = stdout w
  /\ forall e,
       fst (log_action_try act rtype rid old new context risk flags w)
       = Raises e ->
       is_Exception e = true.
Proof.
  unfold log_action_try, bind.
  destruct (app_ctx w) as [g|] eqn:Hctx.
  2:{ unfold getattr_g. rewrite Hctx. cbn [fst snd]. split; [done|].
      by intros e [= <-]. }
  rewrite !(getattr_g_run _ _ w g Hctx). cbv beta iota.
  unfold request_attr. cbv beta iota.
  rewrite dump_request_json_run.
  destruct (dumped_request_cases w) as [(p & -> & _)|(e & -> & He & _)];
    cbv beta iota; [|split; [done|by intros e' [= <-]]].
  rewrite dump_if_truthy_run.
  destruct (dumped_cases old) as [[-> _]|(e & -> & He & _)];
    cbv beta iota; [|split; [done|by intros e' [= <-]]].
  rewrite dump_if_truthy_run.
  destruct (dumped_cases new) as [[-> _]|(e & -> & He & _)];
    cbv beta iota; [|split; [done|by intros e' [= <-]]].
  rewrite dump_if_truthy_run.
  destruct (dumped_cases flags) as [[-> _]|(e & -> & He & _)];
    cbv beta iota; [|split; [done|by intros e' [= <-]]].
  unfold db_session_add_commit.
  destruct (fault w) as [msg|];
    [split; [done|by intros e' [= <-]]|].
  cbn [new_user_id new_action new_resource_type].
  destruct (g_attr g "user_id" (Some "system")); destruct act; destruct rtype;
    try (split; [done|by intros e' [= <-]]).
  destruct (within_widths _); unfold ret; cbn [fst snd stdout];
    (split; [done|]); [done|by intros e' [= <-]].
Qed.

(** X2.  [log_action] reports a failed write on the standard output
    and nowhere else: when a statement of its [try] block raises [e], it
    calls [print] once, with ["Audit logging failed: "] followed by
    [str(e)], and returns [None]; when the block returns, nothing is
    printed and its result is returned. *)
Theorem writer_reports_failure_on_stdout act rtype rid old new context risk
    flags w :
  match log_action_try act rtype rid old new context risk flags w with
  | (Returns out, w1) =>
      log_action act rtype rid old new context risk flags w
      = (Returns out, w1)
      /\ stdout w1 = stdout w
  | (Raises e, w1) =>
      exists w',
        log_action act rtype rid old new context risk flags w
        = (Returns None, w')
        /\ stdout w' = stdout w ++ ["Audit logging failed: " +:+ exn_str e]
        /\ rows w' = rows w1 /\ fault w' = fault w1
  end.
Proof.
  pose proof (log_action_try_stdout act rtype rid old new context risk flags
                w) as Hout.
  change (log_action act rtype rid old new context risk flags)
    with (try_except
            (log_action_try act rtype rid old new context risk flags)
            (fun e => _ <- print ("Audit logging failed: " +:+ exn_str e);;
                      ret None)).
  unfold try_except.
  destruct (log_action_try act rtype rid old new context risk flags w)
    as [[out|e] w1]; cbn [snd] in Hout; destruct Hout as [Hout He].
  - done.
  - rewrite (He e eq_refl). unfold bind, print, ret. cbv beta iota.
    eexists. split; [reflexivity|]. cbn [stdout rows fault].
    by rewrite Hout.
Qed.

(** X3.  Inside a request whose body [request.get_json()] cannot read,
    [log_action] records nothing, whatever its arguments and although
    the database works: it returns [None], the table is unchanged, and
    the session is left as it was. *)
Theorem unreadable_body_is_not_recorded act rtype rid old new context risk
    flags w rq description :
  request w = Some rq ->
  request_get_json rq = BadRequest description ->
  exists w',
    log_action act rtype rid old new context risk flags w = (Returns None, w')
    /\ rows w' = rows w /\ fault w' = fault w.
Proof.
  intros Hrq Hbody.
  destruct (log_action_spec act rtype rid old new context risk flags w)
    as (out & w' & Hrun & _ & _ & _ & Hout).
  destruct (log_action_effects act rtype rid old new context risk flags w)
    as (out' & w'' & Hrun' & _ & Hout').
  rewrite Hrun in Hrun'. injection Hrun' as <- <-.
  assert (Hno : audit_ready w = false).
  { unfold audit_ready. rewrite Hrq, Hbody. apply andb_false_r. }
  destruct out as [i|].
  { destruct Hout as (r & _ & _ & _ & _ & Hready & _). congruence. }
  exists w'. split; [done|]. split; [by destruct Hout|].
  destruct Hout' as (_ & e & _ & _ & ->).
  unfold reaches_insert. rewrite Hrq, Hbody.
  by rewrite andb_false_r.
Qed.

Lemma unreadable_body_is_not_recorded_witness :
  request malformed_request
  = Some (mk_Request (Some "10.0.0.7") (Some "curl/8.5") "POST"
            (Some "create_payment") (BadRequest "Failed to decode JSON object"))
  /\ exists w',
       log_action (Some "CREATE") (Some "payment") (Some "PAY-1") PyNone
         (PyDict [(PyStr "amount", PyInt 250)]) None "LOW" PyNone
         malformed_request = (Returns None, w')
       /\ rows w' = rows malformed_request
       /\ fault w' = fault malformed_request.
Proof.
  split; [reflexivity|].
  apply (unreadable_body_is_not_recorded (Some "CREATE") (Some "payment")
           (Some "PAY-1") PyNone (PyDict [(PyStr "amount", PyInt 250)]) None
           "LOW" PyNone malformed_request
           (mk_Request (Some "10.0.0.7") (Some "curl/8.5") "POST"
              (Some "create_payment")
              (BadRequest "Failed to decode JSON object"))
           "Failed to decode JSON object"); reflexivity.
Defined.

(** X4.  An INSERT that the database rejects -- a required column is
    [None], or a string is longer than its column -- leaves the session
    in its failed state, because the handler of [log_action] does not
    roll back: every later [log_action] through this session records
    nothing, and [get_audit_trail] raises. *)
Theorem rejected_insert_blocks_the_session act rtype rid old new context risk
    flags w :
  audit_ready w = true ->
  dumpable old = true -> dumpable new = true -> dumpable flags = true ->
  storable act rtype rid risk = false ->
  exists w',
    log_action act rtype rid old new context risk flags w = (Returns None, w')
    /\ rows w' = rows w
    /\ (forall act2 rtype2 rid2 old2 new2 context2 risk2 flags2,
          exists w'',
            log_action act2 rtype2 rid2 old2 new2 context2 risk2 flags2 w'
            = (Returns None, w'')
            /\ rows w'' = rows w)
    /\ (forall by_type by_resource by_user start_date end_date limit,
          exists e,
            get_audit_trail by_type by_resource by_user start_date end_date
              limit w' = (Raises e, w')).
Proof.
  intros Hready Hold Hnew Hflags Hno.
  destruct (log_action_spec act rtype rid old new context risk flags w)
    as (out & w' & Hrun & _ & _ & _ & Hout).
  destruct (log_action_effects act rtype rid old new context risk flags w)
    as (out' & w'' & Hrun' & _ & Hout').
  rewrite Hrun in Hrun'. injection Hrun' as <- <-.
  destruct out as [i|].
  { destruct Hout as (r & _ & _ & _ & _ & _ & Hst & _). congruence. }
  destruct Hout as [Hrows _]. destruct Hout' as (_ & e & _ & _ & Hfault).
  rewrite (audit_ready_reaches_insert _ _ _ _ Hready Hold Hnew Hflags)
    in Hfault.
  exists w'. split; [done|]. split; [done|]. split.
  - intros act2 rtype2 rid2 old2 new2 context2 risk2 flags2.
    destruct (log_action_spec act2 rtype2 rid2 old2 new2 context2 risk2
                flags2 w') as (out2 & w2 & Hrun2 & _ & _ & _ & Hout2).
    destruct out2 as [i|].
    + destruct Hout2 as (r & _ & _ & _ & _ & Hready2 & _).
      rewrite (fault_not_ready _ _ Hfault) in Hready2. done.
    + exists w2. split; [done|]. destruct Hout2 as [-> _]. done.
  - intros. unfold get_audit_trail. rewrite Hfault. by eexists.
Qed.

Lemma rejected_insert_blocks_the_session_witness :
  audit_ready background_job = true
  /\ storable (Some "EXPORT") (Some "report") None "HIGH_AND_TIME_CRITICAL"
     = false
  /\ exists w',
       log_action (Some "EXPORT") (Some "report") None PyNone PyNone None
         "HIGH_AND_TIME_CRITICAL" PyNone background_job = (Returns None, w')
       /\ rows w' = rows background_job
       /\ (forall act2 rtype2 rid2 old2 new2 context2 risk2 flags2,
             exists w'',
               log_action act2 rtype2 rid2 old2 new2 context2 risk2 flags2 w'
               = (Returns None, w'')
               /\ rows w'' = rows background_job)
       /\ (forall by_type by_resource by_user start_date end_date limit,
             exists e,
               get_audit_trail by_type by_resource by_user start_date
                 end_date limit w' = (Raises e, w')).
Proof.
  split; [reflexivity|]. split; [reflexivity|].
  apply (rejected_insert_blocks_the_session (Some "EXPORT") (Some "report")
           None PyNone PyNone None "HIGH_AND_TIME_CRITICAL" PyNone
           background_job); reflexivity.
Defined.

(** X5.  The row [log_action] inserts says who acted and from where:
    [user_email] and [session_id] are the attributes of [g] ([NULL] when
    [g] has none), and inside a request the row holds the address, the
    user agent, the method, the endpoint and the serialized JSON body of
    the request; outside a request these five columns are NULL. *)
Theorem row_records_identity_and_request act rtype rid old new context risk
    flags w i w' :
  log_action act rtype rid old new context risk flags w
  = (Returns (Some i), w') ->
  exists r,
    rows w' = rows w ++ [r] /\ id r = i
    /\ identity_columns w r /\ request_columns w r.
Proof.
  intros Hrun.
  destruct (log_action_effects act rtype rid old new context risk flags w)
    as (out & w'' & Hrun' & _ & Hout).
  rewrite Hrun in Hrun'. injection Hrun' as <- <-.
  destruct Hout as (_ & _ & r & -> & Hrows & Hid & Hrq & _).
  by exists r.
Qed.

Lemma row_records_identity_and_request_witness :
  exists i w',
    log_action (Some "CREATE") (Some "payment") (Some "PAY-1") PyNone
      (PyDict [(PyStr "amount", PyInt 250)]) None "LOW" PyNone user_request
    = (Returns (Some i), w')
    /\ exists r,
         rows w' = rows user_request ++ [r] /\ id r = i
         /\ identity_columns user_request r /\ request_columns user_request r.
Proof.
  eexists _, _. split; [reflexivity|].
  apply (row_records_identity_and_request (Some "CREATE") (Some "payment")
           (Some "PAY-1") PyNone (PyDict [(PyStr "amount", PyInt 250)])
           None "LOW" PyNone user_request).
  reflexivity.
Defined.



(** X7.  Whatever its arguments, [log_action] writes no outcome: the
    row it adds, if any, has [status] ['SUCCESS'], [service_name]
    ['financial-advanced'], the retention of 2555 days and [archived]
    false, and [error_message], [response_status], [response_payload],
    [processing_time_ms], [metadata] and [archived_at] are NULL. *)
Theorem writer_sets_no_outcome_columns act rtype rid old new context risk
    flags w :
  exists added,
    rows (snd (log_action act rtype rid old new context risk flags w))
    = rows w ++ added
    /\ Forall literal_columns added.
Proof.
  destruct (log_action_effects act rtype rid old new context risk flags w)
    as (out & w' & -> & _ & Hout).
  cbn [snd]. destruct out as [i|].
  - destruct Hout as (_ & _ & r & _ & Hrows & _ & _ & Hlit & _).
    exists [r]. split; [done|]. by apply List.Forall_cons.
  - destruct Hout as [-> _]. exists []. split; [by rewrite app_nil_r|].
    by apply List.Forall_nil.
Qed.

(** ** Everything the wrapper does *)

(** X8.  A wrapped call adds at most one row, after the rows the
    operation itself wrote.  That row has [status] ['SUCCESS'] and no
    [error_message], [response_status] or [processing_time_ms] also when
    the operation raised, and it takes the user, the session and the
    request from the process as the operation left it. *)
Theorem wrapper_adds_at_most_one_row {A} act rtype risk name (f : M A)
    w res w1 :
  f w = (res, w1) ->
  exists w2 added,
    audit_required act rtype risk name f w = (res, w2)
    /\ rows w2 = rows w1 ++ added /\ (length added <= 1)%nat
    /\ Forall (fun r => literal_columns r /\ identity_columns w1 r
                        /\ request_columns w1 r) added.
Proof.
  intros Hf. unfold audit_required, try_except, bind. rewrite Hf.
  assert (Hlog : forall context risk',
    exists out w2 added,
      log_action (Some (py_or act (upper name)))
        (Some (py_or rtype "unknown")) None PyNone PyNone context risk'
        PyNone w1 = (Returns out, w2)
      /\ rows w2 = rows w1 ++ added /\ (length added <= 1)%nat
      /\ Forall (fun r => literal_columns r /\ identity_columns w1 r
                          /\ request_columns w1 r) added).
  { intros context risk'.
    destruct (log_action_effects (Some (py_or act (upper name)))
                (Some (py_or rtype "unknown")) None PyNone PyNone context
                risk' PyNone w1) as (out & w2 & Hrun & _ & Hout).
    exists out, w2. destruct out as [i|].
    - destruct Hout as (_ & _ & r & _ & Hrows & Hwho & Hrq & Hlit & _).
      exists [r]. split; [done|]. split; [done|]. split; [cbn; lia|].
      by apply List.Forall_cons.
    - destruct Hout as [Hrows _]. exists []. split; [done|].
      split; [by rewrite app_nil_r|]. split; [cbn; lia|].
      by apply List.Forall_nil. }
  destruct res as [a|e].
  - destruct (Hlog (Some ("Function " +:+ name +:+ " executed successfully"))
                risk) as (out & w2 & added & -> & Hrest).
    by exists w2, added.
  - destruct (is_Exception e).
    + unfold log_error.
      destruct (Hlog (Some ("Error occurred: " +:+ exn_str e)) "HIGH")
        as (out & w2 & added & -> & Hrest).
      by exists w2, added.
    + exists w1, []. split; [done|]. split; [by rewrite app_nil_r|].
      split; [cbn; lia|]. by apply List.Forall_nil.
Qed.

Lemma wrapper_adds_at_most_one_row_witness :
  create_payment user_request = (Raises insufficient_funds, user_request)
  /\ exists w2 added,
       audit_required (Some "CREATE") (Some "payment") "MEDIUM"
         "create_payment" create_payment user_request
       = (Raises insufficient_funds, w2)
       /\ rows w2 = rows user_request ++ added /\ (length added <= 1)%nat
       /\ Forall (fun r => literal_columns r /\ identity_columns user_request r
                           /\ request_columns user_request r) added.
Proof.
  split; [reflexivity|].
  apply (wrapper_adds_at_most_one_row (Some "CREATE") (Some "payment")
           "MEDIUM" "create_payment" create_payment user_request
           (Raises insufficient_funds) user_request).
  reflexivity.
Defined.

(** X9.  A direct call of [log_error] that is stored gives a row whose
    [business_context] is ["Error occurred: "] followed by the message,
    whose [risk_level] is ['HIGH'] and whose [resource_id] is the one
    passed; the message is not put in [error_message], which stays NULL,
    [status] is ['SUCCESS'], and the three payload columns are NULL. *)
Theorem log_error_row act rtype message rid w i w' :
  log_error act rtype message rid w = (Returns (Some i), w') ->
  exists r,
    rows w' = rows w ++ [r] /\ id r = i
    /\ act = Some (action r) /\ rtype = Some (resource_type r)
    /\ resource_id r = rid
    /\ business_context r = Some ("Error occurred: " +:+ message)
    /\ risk_level r = Some "HIGH"
    /\ status r = Some "SUCCESS" /\ error_message r = None
    /\ old_values r = None /\ new_values r = None
    /\ compliance_flags r = None.
Proof.
  unfold log_error. intros Hrun.
  destruct (log_action_spec act rtype rid PyNone PyNone
              (Some ("Error occurred: " +:+ message)) "HIGH" PyNone w)
    as (out & w2 & Hrun2 & _ & _ & _ & Hout).
  destruct (log_action_effects act rtype rid PyNone PyNone
              (Some ("Error occurred: " +:+ message)) "HIGH" PyNone w)
    as (out3 & w3 & Hrun3 & _ & Hout3).
  rewrite Hrun in Hrun2, Hrun3.
  injection Hrun2 as <- <-. injection Hrun3 as <- <-.
  destruct Hout as (r & -> & Hrows & _ & Hrow & _).
  destruct Hout3 as (_ & _ & r' & Hid & Hrows' & _ & _ & _ & Hflags).
  rewrite Hrows in Hrows'. apply app_inv_head in Hrows'.
  injection Hrows' as <-.
  destruct Hrow as (_ & _ & _ & ? & ? & ? & _ & ? & ? & ? & ? & ? & ? & _).
  exists r. by repeat split.
Qed.

Lemma log_error_row_witness :
  exists i w',
    log_error (Some "TRANSFER_FUNDS") (Some "payment") "insufficient funds"
      (Some "PAY-1") user_request = (Returns (Some i), w')
    /\ exists r,
         rows w' = rows user_request ++ [r] /\ id r = i
         /\ Some "TRANSFER_FUNDS" = Some (action r)
         /\ Some "payment" = Some (resource_type r)
         /\ resource_id r = Some "PAY-1"
         /\ business_context r = Some "Error occurred: insufficient funds"
         /\ risk_level r = Some "HIGH"
         /\ status r = Some "SUCCESS" /\ error_message r = None
         /\ old_values r = None /\ new_values r = None
         /\ compliance_flags r = None.
Proof.
  eexists _, _. split; [reflexivity|].
  apply (log_error_row (Some "TRANSFER_FUNDS") (Some "payment")
           "insufficient funds" (Some "PAY-1") user_request).
  reflexivity.
Defined.

(** X10.  An error that does not derive from [Exception]
    ([KeyboardInterrupt], [SystemExit]) passes through the wrapper
    untouched: nothing is recorded, nothing is printed, and the process
    is exactly as the operation left it. *)
Theorem wrapper_leaves_non_exceptions_alone {A} act rtype risk name
    (f : M A) w e w1 :
  f w = (Raises e, w1) -> is_Exception e = false ->
  audit_required act rtype risk name f w = (Raises e, w1).
Proof.
  intros Hf He. unfold audit_required, try_except, bind.
  by rewrite Hf, He.
Qed.

Lemma wrapper_leaves_non_exceptions_alone_witness :
  interrupted_job user_request = (Raises keyboard_interrupt, user_request)
  /\ is_Exception keyboard_interrupt = false
  /\ audit_required (Some "EXPORT") (Some "report") "LOW" "export_report"
       interrupted_job user_request
     = (Raises keyboard_interrupt, user_request).
Proof.
  split; [reflexivity|]. split; [reflexivity|].
  apply (wrapper_leaves_non_exceptions_alone (Some "EXPORT") (Some "report")
           "LOW" "export_report" interrupted_job user_request
           keyboard_interrupt user_request); reflexivity.
Defined.

(** ** More about the trail query *)

Lemma StronglySorted_app_between {A} (R : A -> A -> Prop) l1 l2 a b :
  StronglySorted R (l1 ++ l2) -> In a l1 -> In b l2 -> R a b.
Proof.
  induction l1 as [|x l1 IH]; [done|].
  cbn [app]. intros Hs [->|Ha] Hb.
  - apply StronglySorted_inv in Hs as [_ Hall].
    rewrite List.Forall_forall in Hall. apply Hall, in_or_app. by right.
  - apply StronglySorted_inv in Hs as [Hs _]. by apply IH.
Qed.

Lemma trail_members by_type by_resource by_user start_date end_date limit
    w l w' r :
  get_audit_trail by_type by_resource by_user start_date end_date limit w
  = (Returns l, w') ->
  In r l ->
  In r (rows w)
  /\ in_trail by_type by_resource by_user start_date end_date r = true.
Proof.
  intros Hrun Hin. apply get_audit_trail_returns in Hrun. subst l.
  apply In_take in Hin. rewrite In_order_by_timestamp_desc in Hin.
  by apply filter_In in Hin.
Qed.

(** X11.  When [limit] cuts the result, the rows that are kept are the
    most recent ones: a matching row of the table that is not returned
    is no more recent than any row that is. *)
Theorem trail_keeps_the_most_recent by_type by_resource by_user start_date
    end_date limit w l w' a b :
  get_audit_trail by_type by_resource by_user start_date end_date limit w
  = (Returns l, w') ->
  In a l ->
  In b (rows w) ->
  selected by_type by_resource by_user start_date end_date b ->
  ~ In b l ->
  timestamp b <= timestamp a.
Proof.
  intros Hrun Ha Hb Hsel Hnot.
  apply get_audit_trail_returns in Hrun. subst l.
  set (n := match limit with Some n => n | None => default_limit end) in *.
  set (sorted := order_by_timestamp_desc
                   (List.filter (in_trail by_type by_resource by_user
                                   start_date end_date) (rows w))) in *.
  assert (Hin : In b sorted).
  { unfold sorted. rewrite In_order_by_timestamp_desc. apply filter_In.
    split; [done|].
    by apply in_trail_selected. }
  rewrite <- (take_drop n sorted) in Hin.
  apply in_app_or in Hin as [Hin|Hin]; [done|].
  apply (StronglySorted_app_between not_before (take n sorted)
           (drop n sorted)); [|done|done].
  rewrite take_drop. apply order_by_timestamp_desc_sorted.
Qed.

Lemma trail_keeps_the_most_recent_witness :
  exists l a b,
    get_audit_trail None None None None None (Some 1%nat) two_records
    = (Returns l, two_records)
    /\ In a l /\ In b (rows two_records)
    /\ selected None None None None None b
    /\ ~ In b l
    /\ action a = "UPDATE" /\ action b = "CREATE"
    /\ timestamp b <= timestamp a.
Proof.
  eexists _, _, _.
  split; [reflexivity|]. split; [left; reflexivity|].
  split; [left; reflexivity|].
  split; [by apply in_trail_selected|].
  split; [intros [H|[]]; vm_compute in H; discriminate H|].
  split; [reflexivity|]. split; [reflexivity|].
  eapply (trail_keeps_the_most_recent None None None None None (Some 1%nat)
            two_records _ two_records).
  - reflexivity.
  - left; reflexivity.
  - left; reflexivity.
  - by apply in_trail_selected.
  - intros [H|[]]; vm_compute in H; discriminate H.
Defined.

(** X12.  The result leaves a matching row out only when it is full:
    if fewer rows than [limit] are returned, every matching row of the
    table is among them. *)
Theorem trail_is_complete_below_limit by_type by_resource by_user start_date
    end_date limit w l w' :
  get_audit_trail by_type by_resource by_user start_date end_date limit w
  = (Returns l, w') ->
  (length l < match limit with Some n => n | None => 100 end)%nat ->
  forall b,
    In b (rows w) ->
    selected by_type by_resource by_user start_date end_date b ->
    In b l.
Proof.
  intros Hrun Hlen b Hb Hsel.
  apply get_audit_trail_returns in Hrun. subst l.
  change 100%nat with default_limit in Hlen.
  set (n := match limit with Some n => n | None => default_limit end) in *.
  rewrite length_take in Hlen.
  rewrite take_ge by lia.
  rewrite In_order_by_timestamp_desc. apply filter_In. split; [done|].
  by apply in_trail_selected.
Qed.

Lemma trail_is_complete_below_limit_witness :
  exists l,
    get_audit_trail (Some "payment") None None None None (Some 2%nat)
      two_records = (Returns l, two_records)
    /\ length l = 1%nat
    /\ forall b,
         In b (rows two_records) ->
         selected (Some "payment") None None None None b ->
         In b l.
Proof.
  eexists. split; [reflexivity|]. split; [reflexivity|].
  apply (trail_is_complete_below_limit (Some "payment") None None None None
           (Some 2%nat) two_records _ two_records).
  - reflexivity.
  - vm_compute. lia.
Defined.

(** X13.  What was written is found: after [log_action] returned an
    id, [get_audit_trail] asked for the resource type, the resource id
    and the user of that row, with both ends of the time range at the
    instant of the write and a limit above the size of the table,
    returns the row. *)
Theorem logged_row_is_found act rtype rid old new context risk flags w i w'
    n :
  log_action (Some act) (Some rtype) rid old new context risk flags w
  = (Returns (Some i), w') ->
  (length (rows w) < n)%nat ->
  exists r l,
    rows w' = rows w ++ [r] /\ id r = i
    /\ get_audit_trail (Some rtype) rid (Some (user_id r))
         (Some (utcnow w)) (Some (utcnow w)) (Some n) w'
       = (Returns l, w')
    /\ In r l.
Proof.
  intros Hrun Hn.
  destruct (log_action_spec (Some act) (Some rtype) rid old new context risk
              flags w) as (out & w2 & Hrun2 & _ & _ & _ & Hout).
  rewrite Hrun in Hrun2. injection Hrun2 as <- <-.
  destruct Hout as (r & -> & Hrows & Hfault & Hrow & Hready & _).
  destruct Hrow as (_ & Hts & _ & _ & Hrt & Hrid & _).
  injection Hrt as Hrt.
  exists r. eexists. split; [done|]. split; [done|].
  unfold get_audit_trail.
  rewrite Hfault, (audit_ready_fault _ Hready). split; [reflexivity|].
  rewrite take_ge.
  2:{ rewrite length_order_by_timestamp_desc.
      etrans; [apply List.filter_length_le|]. rewrite Hrows, length_app.
      cbn. lia. }
  rewrite In_order_by_timestamp_desc. apply filter_In. split.
  - rewrite Hrows. apply in_or_app. right. by left.
  - apply in_trail_selected. unfold selected. rewrite Hts.
    repeat split.
    + by intros s [= <-] _.
    + intros s -> _. done.
    + by intros s [= <-] _.
    + intros d [= <-]. lia.
    + intros d [= <-]. lia.
Qed.

Lemma logged_row_is_found_witness :
  exists i w',
    log_action (Some "CREATE") (Some "payment") (Some "PAY-1") PyNone
      (PyDict [(PyStr "amount", PyInt 250)]) None "LOW" PyNone user_request
    = (Returns (Some i), w')
    /\ (length (rows user_request) < 10)%nat
    /\ exists r l,
         rows w' = rows user_request ++ [r] /\ id r = i
         /\ get_audit_trail (Some "payment") (Some "PAY-1")
              (Some (user_id r)) (Some (utcnow user_request))
              (Some (utcnow user_request)) (Some 10%nat) w'
            = (Returns l, w')
         /\ In r l.
Proof.
  eexists _, _. split; [reflexivity|]. split; [cbn; lia|].
  apply (logged_row_is_found "CREATE" "payment" (Some "PAY-1") PyNone
           (PyDict [(PyStr "amount", PyInt 250)]) None "LOW" PyNone
           user_request).
  - reflexivity.
  - cbn; lia.
Defined.

(** X14.  A time range whose start is after its end selects nothing:
    the query returns the empty list, it does not swap the ends. *)
Theorem trail_of_inverted_range_is_empty by_type by_resource by_user
    start_date end_date limit w l w' :
  end_date < start_date ->
  get_audit_trail by_type by_resource by_user (Some start_date)
    (Some end_date) limit w = (Returns l, w') ->
  l = [].
Proof.
  intros Hlt Hrun. destruct l as [|r l]; [done|].
  destruct (trail_members _ _ _ _ _ _ _ _ _ r Hrun) as [_ Hin]; [by left|].
  apply in_trail_selected in Hin as (_ & _ & _ & Hs & He).
  specialize (Hs _ eq_refl). specialize (He _ eq_refl). lia.
Qed.

Lemma trail_of_inverted_range_is_empty_witness :
  1700000000000000 < 1700000000000500
  /\ exists l,
       get_audit_trail None None None (Some 1700000000000500)
         (Some 1700000000000000) None two_records = (Returns l, two_records)
       /\ l = [].
Proof.
  split; [lia|]. eexists. split; [reflexivity|].
  apply (trail_of_inverted_range_is_empty None None None 1700000000000500
           1700000000000000 None two_records _ two_records).
  - lia.
  - reflexivity.
Defined.

(** ** A tuple among the payloads *)



(** ** The request hook of [main.py] *)

Lemma before_request_run s g rq :
  app_ctx (process s) = Some g -> request (process s) = Some rq ->
  before_request s
  = (Returns tt,
     mk_Server
       (mk_World
          (Some (<["session_id" := header s "X-Session-ID"]>
                   (<["user_email" := header s "X-User-Email"]>
                      (<["user_id" :=
                           Some (match header s "X-User-ID" with
                                 | Some u => u
                                 | None => "anonymous"
                                 end)]> g))))
          (request (process s)) (rows (process s)) (fault (process s))
          (utcnow (process s)) (uuid4 (process s)) (uuid_drawn (process s))
          (stdout (process s)))
       (header s) (Some (utcnow (process s)))
       (logged s
        ++ ["Request: " +:+ request_method rq +:+ " "
            +:+ str_optional (request_endpoint rq) +:+ " from "
            +:+ str_optional (request_remote_addr rq)])).
Proof.
  destruct s as [[ctx rqo table flt now ids drawn out] h t lg].
  cbn [process app_ctx request]. intros -> ->. reflexivity.
Qed.

Lemma before_request_returns s s' :
  before_request s = (Returns tt, s') ->
  exists g rq, app_ctx (process s) = Some g /\ request (process s) = Some rq.
Proof.
  destruct s as [[ctx rqo table flt now ids drawn out] h t lg].
  cbn [process app_ctx request].
  destruct ctx as [g|]; [|discriminate].
  destruct rqo as [rq|]; [|discriminate].
  intros _. by exists g, rq.
Qed.

Lemma g_after_before_request g uid email sess :
  let g' := <["session_id" := sess]>
              (<["user_email" := email]> (<["user_id" := Some uid]> g)) in
  g_attr g' "user_id" (Some "system") = Some uid
  /\ g_attr g' "user_email" None = email
  /\ g_attr g' "session_id" None = sess.
Proof.
  cbv zeta. unfold g_attr. rewrite !lookup_insert.
  repeat split; repeat case_decide; done.
Qed.

(** X16.  After [before_request] has run, what [log_action] reads
    from [g] is what the request's headers say: [getattr(g, 'user_id',
    'system')] gives the [X-User-ID] header, or ['anonymous'] when the
    request has no such header -- never the default ['system'] --, and
    the attributes [user_email] and [session_id] give the headers
    [X-User-Email] and [X-Session-ID], or [None].  [before_request]
    leaves the audit table and the session alone. *)
Theorem request_user_is_header_or_anonymous s s' :
  before_request s = (Returns tt, s') ->
  getattr_g "user_id" (Some "system") (process s')
  = (Returns (Some (match header s "X-User-ID" with
                    | Some u => u
                    | None => "anonymous"
                    end)), process s')
  /\ getattr_g "user_email" None (process s')
     = (Returns (header s "X-User-Email"), process s')
  /\ getattr_g "session_id" None (process s')
     = (Returns (header s "X-Session-ID"), process s')
  /\ no_user_bound (process s') = false
  /\ rows (process s') = rows (process s)
  /\ fault (process s') = fault (process s).
Proof.
  intros Hbr.
  destruct (before_request_returns _ _ Hbr) as (g & rq & Hg & Hrq).
  rewrite (before_request_run _ _ _ Hg Hrq) in Hbr. injection Hbr as <-.
  cbn [process rows fault]. unfold getattr_g, no_user_bound.
  cbn [app_ctx].
  destruct (g_after_before_request g
              (match header s "X-User-ID" with
               | Some u => u
               | None => "anonymous"
               end) (header s "X-User-Email") (header s "X-Session-ID"))
    as (Hu & He & Hs).
  rewrite Hu, He, Hs. do 3 (split; [reflexivity|]).
  split; [|done]. rewrite lookup_insert_ne by done.
  rewrite lookup_insert_ne by done. by rewrite lookup_insert_eq.
Qed.

Lemma request_user_is_header_or_anonymous_witness :
  before_request (incoming no_headers)
  = (Returns tt, prepared (incoming no_headers))
  /\ getattr_g "user_id" (Some "system")
       (process (prepared (incoming no_headers)))
     = (Returns (Some "anonymous"), process (prepared (incoming no_headers)))
  /\ no_user_bound (process (prepared (incoming no_headers))) = false.
Proof.
  split; [by vm_compute|].
  destruct (request_user_is_header_or_anonymous (incoming no_headers)
              (prepared (incoming no_headers)))
    as (Hu & _ & _ & Hbound & _); [by vm_compute|].
  split; [exact Hu|exact Hbound].
Defined.

(** ** The writer, the wrapper and the query together *)

(** X18.  The rows the wrapper writes carry no resource id, so a query
    by resource id never returns them: asking [get_audit_trail] for any
    non-empty [resource_id] leaves the wrapper's row out. *)
Theorem wrapper_rows_are_not_found_by_resource_id {A} act rtype risk name
    (f : M A) w res w1 w2 r by_type rid by_user start_date end_date limit
    l w3 :
  f w = (res, w1) ->
  audit_required act rtype risk name f w = (res, w2) ->
  rows w2 = rows w1 ++ [r] ->
  rid <> "" ->
  get_audit_trail by_type (Some rid) by_user start_date end_date limit w2
  = (Returns l, w3) ->
  resource_id r = None /\ ~ In r l.
Proof.
  intros Hf Hrun Hrows Hrid Hquery.
  destruct (audit_required_spec act rtype risk name f w res w1 Hf)
    as (w2' & Hrun' & Hwrote).
  rewrite Hrun in Hrun'. injection Hrun' as <-.
  assert (Hnone : resource_id r = None).
  { destruct (wrapper_writes act rtype risk name res w1).
    - destruct Hwrote as (r' & Hrows' & Hrow). rewrite Hrows in Hrows'.
      apply app_inv_head in Hrows'. injection Hrows' as <-.
      by destruct Hrow as (_ & _ & _ & _ & _ & ? & _).
    - rewrite Hwrote in Hrows. apply (f_equal length) in Hrows.
      rewrite length_app in Hrows. cbn in Hrows. lia. }
  split; [done|]. intros Hin.
  destruct (trail_members _ _ _ _ _ _ _ _ _ r Hquery Hin) as [_ Htrail].
  apply in_trail_selected in Htrail as (_ & Hres & _).
  specialize (Hres rid eq_refl Hrid). congruence.
Qed.

Lemma wrapper_rows_are_not_found_by_resource_id_witness :
  exists w2 r l,
    health_check background_job = (Returns healthy, background_job)
    /\ audit_required (Some "HEALTH_CHECK") (Some "system") "LOW"
         "health_check" health_check background_job = (Returns healthy, w2)
    /\ rows w2 = rows background_job ++ [r]
    /\ "system" <> ""
    /\ get_audit_trail None (Some "system") None None None None w2
       = (Returns l, w2)
    /\ resource_id r = None /\ ~ In r l.
Proof.
  eexists _, _, _. split; [reflexivity|]. split; [reflexivity|].
  split; [reflexivity|]. split; [discriminate|]. split; [reflexivity|].
  eapply (wrapper_rows_are_not_found_by_resource_id (Some "HEALTH_CHECK")
            (Some "system") "LOW" "health_check" health_check background_job
            (Returns healthy) background_job _ _ None "system" None None None
            None).
  - reflexivity.
  - reflexivity.
  - reflexivity.
  - discriminate.
  - reflexivity.
Defined.

(** X19.  The trail shows the latest write first: after two writes
    into an empty table, the second at a later instant than the first,
    the unfiltered query returns the two rows, the second one before the
    first. *)
Theorem trail_lists_the_latest_write_first act1 rtype1 rid1 old1 new1
    context1 risk1 flags1 act2 rtype2 rid2 old2 new2 context2 risk2 flags2
    w i1 w1 later i2 w2 :
  rows w = [] ->
  log_action act1 rtype1 rid1 old1 new1 context1 risk1 flags1 w
  = (Returns (Some i1), w1) ->
  utcnow w < later ->
  log_action act2 rtype2 rid2 old2 new2 context2 risk2 flags2
    (at_time later w1) = (Returns (Some i2), w2) ->
  exists l,
    get_audit_trail None None None None None None w2 = (Returns l, w2)
    /\ map id l = [i2; i1].
Proof.
  intros Hempty Hrun1 Hlater Hrun2.
  destruct (log_action_spec act1 rtype1 rid1 old1 new1 context1 risk1 flags1
              w) as (out & w1' & Hrun1' & _ & _ & _ & Hout1).
  rewrite Hrun1 in Hrun1'. injection Hrun1' as <- <-.
  destruct Hout1 as (r1 & -> & Hrows1 & _ & Hrow1 & _).
  destruct (log_action_spec act2 rtype2 rid2 old2 new2 context2 risk2 flags2
              (at_time later w1)) as (out & w2' & Hrun2' & _ & _ & _ & Hout2).
  rewrite Hrun2 in Hrun2'. injection Hrun2' as <- <-.
  destruct Hout2 as (r2 & -> & Hrows2 & Hfault2 & Hrow2 & Hready2 & _).
  destruct Hrow1 as (_ & Hts1 & _). destruct Hrow2 as (_ & Hts2 & _).
  cbn [at_time rows utcnow] in Hrows2, Hts2.
  rewrite Hrows1, Hempty in Hrows2. cbn [app] in Hrows2.
  unfold get_audit_trail.
  rewrite Hfault2, (audit_ready_fault _ Hready2), Hrows2.
  eexists. split; [reflexivity|].
  cbn [List.filter in_trail matches given andb order_by_timestamp_desc
       insert_desc].
  rewrite Hts1, Hts2.
  destruct (Z.leb_spec later (utcnow w)) as [Hle|_]; [lia|].
  reflexivity.
Qed.

Lemma trail_lists_the_latest_write_first_witness :
  exists i1 w1 i2 w2,
    rows background_job = []
    /\ log_action (Some "CREATE") (Some "payment") (Some "PAY-1") PyNone
         (PyDict [(PyStr "amount", PyInt 250)]) None "LOW" PyNone
         background_job = (Returns (Some i1), w1)
    /\ utcnow background_job < 1700000000000500
    /\ log_action (Some "UPDATE") (Some "project") (Some "P1")
         (PyDict [(PyStr "budget", PyInt 100)])
         (PyDict [(PyStr "budget", PyInt 120)]) None "MEDIUM" PyNone
         (at_time 1700000000000500 w1) = (Returns (Some i2), w2)
    /\ exists l,
         get_audit_trail None None None None None None w2 = (Returns l, w2)
         /\ map id l = [i2; i1].
Proof.
  eexists _, _, _, _. split; [reflexivity|]. split; [reflexivity|].
  split; [reflexivity|]. split; [reflexivity|].
  eapply (trail_lists_the_latest_write_first (Some "CREATE") (Some "payment")
           (Some "PAY-1") PyNone (PyDict [(PyStr "amount", PyInt 250)]) None
           "LOW" PyNone (Some "UPDATE") (Some "project") (Some "P1")
           (PyDict [(PyStr "budget", PyInt 100)])
           (PyDict [(PyStr "budget", PyInt 120)]) None "MEDIUM" PyNone
           background_job _ _ 1700000000000500); reflexivity.
Defined.

(** X20.  Outside an application context -- in a thread or a job that
    did not push one -- [log_action] records nothing, whatever its
    arguments: reading [g] fails before the default ['system'] can be
    used, the call returns [None], and the table and the session are
    left as they were. *)
Theorem nothing_is_recorded_outside_an_application_context act rtype rid old
    new context risk flags w :
  app_ctx w = None ->
  exists w',
    log_action act rtype rid old new context risk flags w = (Returns None, w')
    /\ rows w' = rows w /\ fault w' = fault w.
Proof.
  intros Hctx.
  destruct (log_action_spec act rtype rid old new context risk flags w)
    as (out & w' & Hrun & _ & _ & _ & Hout).
  destruct (log_action_effects act rtype rid old new context risk flags w)
    as (out' & w'' & Hrun' & _ & Hout').
  rewrite Hrun in Hrun'. injection Hrun' as <- <-.
  destruct out as [i|].
  { destruct Hout as (r & _ & _ & _ & _ & Hready & _).
    unfold audit_ready in Hready. by rewrite Hctx in Hready. }
  exists w'. split; [done|]. destruct Hout' as (Hrows & e & _ & _ & ->).
  split; [done|]. unfold reaches_insert. by rewrite Hctx.
Qed.

Lemma nothing_is_recorded_outside_an_application_context_witness :
  app_ctx worker_thread = None
  /\ exists w',
       log_action (Some "EXPORT") (Some "report") None PyNone PyNone None
         "LOW" PyNone worker_thread = (Returns None, w')
       /\ rows w' = rows worker_thread /\ fault w' = fault worker_thread.
Proof.
  split; [reflexivity|].
  apply (nothing_is_recorded_outside_an_application_context (Some "EXPORT")
           (Some "report") None PyNone PyNone None "LOW" PyNone
           worker_thread).
  reflexivity.
Defined.
